(** * mcp-javascript-sandbox: the QuickJS/WASI runner and its tool handler

    A shallow embedding of the two variants of the server kept in the
    repository:

    - [ServerTs]: [src/server.ts], where the capture descriptors are left
      [undefined] and the returned streams are placeholders;
    - [Part000]: the server listed in [src/unnamed/part_000], which captures
      the two streams in temporary files.

    JavaScript strings are sequences of UTF-16 code units, exceptions are
    thrown values, and every host call (node:fs, node:wasi, WebAssembly) is a
    step of a state-and-exception monad over an explicit host store. *)

From Stdlib Require Import ZArith NArith String Ascii List DecimalString Lia.
From stdpp Require Import gmap list fin_maps.
Import ListNotations.

Local Open Scope N_scope.

(* ===================================================================== *)
(** ** JavaScript strings *)
(* ===================================================================== *)

(** A string is the list of its UTF-16 code units. *)
Abbreviation jsstring := (list N).

(** A literal of the source, written with an ASCII string. *)
Definition js (s : string) : jsstring :=
  List.map N_of_ascii (list_ascii_of_string s).

(** The line feed of a template literal's [\n]. *)
Definition LF : N := 10.
Definition nl : jsstring := [LF].

(** ECMAScript [WhiteSpace] and [LineTerminator] code units, the ones
    [String.prototype.trim] strips: TAB, LF, VT, FF, CR, SP, NBSP, the
    Unicode space separators, LS, PS and the byte order mark. *)
Definition isWhiteSpace (c : N) : bool :=
  ((9 <=? c) && (c <=? 13))
  || (c =? 32) || (c =? 160) || (c =? 5760)
  || ((8192 <=? c) && (c <=? 8202))
  || (c =? 8232) || (c =? 8233) || (c =? 8239) || (c =? 8287)
  || (c =? 12288) || (c =? 65279).

Fixpoint trimStart (s : jsstring) : jsstring :=
  match s with
  | [] => []
  | c :: r => if isWhiteSpace c then trimStart r else s
  end.

Definition trimEnd (s : jsstring) : jsstring := rev (trimStart (rev s)).

(** [String.prototype.trim]. *)
Definition trim (s : jsstring) : jsstring := trimEnd (trimStart s).

(** [s.length]. *)
Definition str_length (s : jsstring) : N := N.of_nat (length s).

(** A string used as a condition: the empty string is falsy. *)
Definition truthy (s : jsstring) : bool :=
  match s with [] => false | _ :: _ => true end.

Fixpoint startsWith (s p : jsstring) {struct p} : bool :=
  match p, s with
  | [], _ => true
  | _ :: _, [] => false
  | x :: p', y :: s' => (x =? y) && startsWith s' p'
  end.

(** [String.prototype.includes]: [n] occurs in [s] as a contiguous run. *)
Fixpoint includes (s n : jsstring) : bool :=
  startsWith s n || match s with [] => false | _ :: s' => includes s' n end.

(** [`${n}`] for an integral number: decimal digits, with a sign when
    negative. *)
Definition number_to_string (z : Z) : jsstring :=
  js (NilZero.string_of_int (Z.to_int z)).

(** [`${v}`] for a value that is a string or [undefined]. *)
Definition template (v : option jsstring) : jsstring :=
  match v with Some s => s | None => js "undefined" end.

(** A value that is a boolean or a string, as [a || (s && b)] produces. *)
Inductive jsval :=
| VBool (b : bool)
| VStr (s : jsstring).

Definition ToBoolean (v : jsval) : bool :=
  match v with VBool b => b | VStr s => truthy s end.

(** [a || b] and [a && b] return one of their operands. *)
Definition js_or (a b : jsval) : jsval := if ToBoolean a then a else b.
Definition js_and (a b : jsval) : jsval := if ToBoolean a then b else a.

(* ===================================================================== *)
(** ** Thrown values *)
(* ===================================================================== *)

(** What a [catch] clause receives.  [Thrown m t] is any value other than
    [null] and [undefined]: [m] is its [message] property ([None] when it
    has none) and [t] its string conversion.  [ThrownNullish t] is [null]
    or [undefined]: reading a property of it throws a [TypeError]. *)
Inductive thrown :=
| Thrown (message : option jsstring) (text : jsstring)
| ThrownNullish (text : jsstring).

Definition error_of (name msg : jsstring) : thrown :=
  Thrown (Some msg) (name ++ js ": " ++ msg).

(** The [TypeError] of reading [message] on [null] or [undefined], named
    by [what]. *)
Definition TypeError_reading (what : jsstring) : thrown :=
  error_of (js "TypeError")
    (js "Cannot read properties of " ++ what ++ js " (reading 'message')").

(** [String(e)]. *)
Definition thrown_text (e : thrown) : jsstring :=
  match e with Thrown _ t => t | ThrownNullish t => t end.

(* ===================================================================== *)
(** ** The host: temporary store, descriptors, and what each call does *)
(* ===================================================================== *)

(** A file under a temporary directory, as [join(tempDir, name)] builds it:
    the directory and the base name. *)
Definition path : Type := jsstring * jsstring.
Definition join (dir name : jsstring) : path := (dir, name).

(** [join(tmpdir(), "quickjs-wasi-")]: a directory prefix. *)
Definition join_prefix (dir name : jsstring) : jsstring :=
  dir ++ js "/" ++ name.

(** The part of the host a run can touch.  [tmp_dirs] maps a directory to
    its files and each file to its text (what [readFile(_, "utf8")] would
    decode); [open_fds] maps an open descriptor to the file it writes;
    [inherited] logs what was written to descriptors the process already
    had (its own stdout and stderr). *)
Record store := mkStore {
  tmp_dirs : gmap (list N) (gmap (list N) (list N));
  open_fds : gmap N (list N * list N);
  inherited : list (N * list N)
}.

Definition with_tmp_dirs (d : gmap (list N) (gmap (list N) (list N)))
    (σ : store) : store :=
  mkStore d (open_fds σ) (inherited σ).
Definition with_open_fds (f : gmap N (list N * list N)) (σ : store) : store :=
  mkStore (tmp_dirs σ) f (inherited σ).

(** What the host does at each call site of [runQuickJsInSandbox]: [None]
    where a call succeeds, [Some e] where it throws [e].  [mkdtemp_result] is
    the random suffix [mkdtemp] appends, or what it throws. *)
Record host := mkHost {
  process_env : list (jsstring * jsstring);
  os_tmpdir : jsstring;
  mkdtemp_result : thrown + jsstring;
  open_stdout_throws : option thrown;
  open_stderr_throws : option thrown;
  new_WASI_throws : option thrown;
  instantiate_throws : option thrown;
  close_stdout_throws : option thrown;
  close_stderr_throws : option thrown;
  readFile_stdout_throws : option thrown;
  readFile_stderr_throws : option thrown;
  cleanup_close_stdout_throws : option thrown;
  cleanup_close_stderr_throws : option thrown;
  cleanup_rm_throws : option thrown
}.

(** The options object given to [new WASI]. *)
Record wasi_options := mkWasi {
  w_version : jsstring;
  w_args : list jsstring;
  w_env : list (jsstring * jsstring);
  w_stdin : N;
  w_stdout : option N;
  w_stderr : option N;
  w_returnOnExit : option bool
}.

(** How a run of the sandboxed program ends: [proc_exit] with a status, or
    a fault that [wasi.start] lets through as an exception.  Only runs that
    end are described: a script that never ends keeps [wasi.start] from
    returning (neither file has a timeout), the handler then gives no
    answer at all, and nothing below speaks of such a run. *)
Inductive ending :=
| Exits (status : Z)
| Faults (e : thrown).

(** One run of the program as the host sees it: the text written to its
    standard output and standard error before it stopped, and how it
    stopped. *)
Record run_trace := mkTrace {
  out_written : jsstring;
  err_written : jsstring;
  run_ending : ending
}.

(** The compiled QuickJS module, taken by what it does under a given WASI
    configuration. *)
Definition wasm_module : Type := wasi_options -> run_trace.

(* ===================================================================== *)
(** ** The monad of host calls *)
(* ===================================================================== *)

(** A computation over the function's mutable locals [L] and the host
    store; it returns a value or throws. *)
Definition M (L A : Type) : Type :=
  L * store -> (thrown + A) * (L * store).

Section HostMonad.
Context {L : Type}.

Definition ret {A} (a : A) : M L A := fun s => (inr a, s).
Definition throw {A} (e : thrown) : M L A := fun s => (inl e, s).
Definition bind {A B} (c : M L A) (k : A -> M L B) : M L B :=
  fun s =>
    match c s with
    | (inl e, s') => (inl e, s')
    | (inr a, s') => k a s'
    end.

(** [try { body } catch (e) { handler e }]. *)
Definition try_catch {A} (body : M L A) (handler : thrown -> M L A) : M L A :=
  fun s =>
    match body s with
    | (inl e, s') => handler e s'
    | (inr a, s') => (inr a, s')
    end.

(** [try { body } finally { fin }]: [fin] runs on both completions and
    replaces the completion only when it throws itself. *)
Definition try_finally {A} (body : M L A) (fin : M L unit) : M L A :=
  fun s =>
    match body s with
    | (r, s') =>
        match fin s' with
        | (inl e, s'') => (inl e, s'')
        | (inr _, s'') => (r, s'')
        end
    end.

Definition get_locals : M L L := fun s => (inr (fst s), s).
Definition set_locals (f : L -> L) : M L unit :=
  fun s => (inr tt, (f (fst s), snd s)).
Definition get_store : M L store := fun s => (inr (snd s), s).
Definition set_store (f : store -> store) : M L unit :=
  fun s => (inr tt, (fst s, f (snd s))).

(** A host call that throws [e] when the host says so and runs otherwise. *)
Definition may_throw {A} (o : option thrown) (c : M L A) : M L A :=
  match o with Some e => throw e | None => c end.
End HostMonad.

#[global] Instance M_ret {L} : MRet (M L) := fun A => @ret L A.
#[global] Instance M_bind {L} : MBind (M L) := fun A B k c => @bind L A B c k.

(** A call of a function with its own locals [L'], initialised to [init]. *)
Definition call {L L' A} (init : L') (c : M L' A) : M L A :=
  fun s =>
    match c (init, snd s) with
    | (r, (_, σ)) => (r, (fst s, σ))
    end.

(** [e.message]: a [TypeError] when [e] is [null] or [undefined]. *)
Definition get_message {L} (e : thrown) : M L (option jsstring) :=
  match e with
  | Thrown m _ => mret m
  | ThrownNullish what => throw (TypeError_reading what)
  end.

(** [e.message ?? e] inside a template literal. *)
Definition message_or_self {L} (e : thrown) : M L jsstring :=
  m ← get_message e;
  mret (match m with Some s => s | None => thrown_text e end).

(* ===================================================================== *)
(** ** node:fs/promises, node:wasi and WebAssembly *)
(* ===================================================================== *)

Definition ENOENT : thrown :=
  error_of (js "Error") (js "ENOENT: no such file or directory").
Definition EEXIST : thrown :=
  error_of (js "Error") (js "EEXIST: file already exists").

Section HostCalls.
Context {L : Type}.

(** [mkdtemp(prefix)]: creates the empty directory [prefix ++ suffix] and
    returns its name; a name already taken is an error. *)
Definition mkdtemp (h : host) (prefix : jsstring) : M L jsstring :=
  match mkdtemp_result h with
  | inl e => throw e
  | inr suffix =>
      let dir := prefix ++ suffix in
      σ ← get_store;
      match tmp_dirs σ !! dir with
      | Some _ => throw EEXIST
      | None =>
          set_store (with_tmp_dirs (<[dir := ∅]> (tmp_dirs σ)));;
          mret dir
      end
  end.

(** [open(p, "w")]: creates or truncates the file and returns a handle on
    a descriptor no open file uses. *)
Definition open_w (throws : option thrown) (p : path) : M L N :=
  may_throw throws (
    σ ← get_store;
    match tmp_dirs σ !! p.1 with
    | None => throw ENOENT
    | Some files =>
        let fd := fresh (dom (open_fds σ)) in
        set_store (fun σ =>
          with_open_fds (<[fd := p]> (open_fds σ))
            (with_tmp_dirs (<[p.1 := <[p.2 := []]> files]> (tmp_dirs σ)) σ));;
        mret fd
    end).

(** [handle.close()]. *)
Definition close (throws : option thrown) (fd : N) : M L unit :=
  may_throw throws
    (set_store (fun σ => with_open_fds (delete fd (open_fds σ)) σ)).

(** [readFile(p, "utf8")]. *)
Definition readFile (throws : option thrown) (p : path) : M L jsstring :=
  may_throw throws (
    σ ← get_store;
    match tmp_dirs σ !! p.1 ≫= (.!! p.2) with
    | Some text => mret text
    | None => throw ENOENT
    end).

(** [rm(dir, { recursive: true, force: true })]: the directory and what it
    holds; a missing directory is not an error. *)
Definition rm_rf (throws : option thrown) (dir : jsstring) : M L unit :=
  may_throw throws
    (set_store (fun σ => with_tmp_dirs (delete dir (tmp_dirs σ)) σ)).

(** [new WASI(options)]. *)
Definition new_WASI (h : host) (o : wasi_options) : M L wasi_options :=
  may_throw (new_WASI_throws h) (mret o).

(** [WebAssembly.instantiate(compiledWasm, wasi.getImportObject())]. *)
Definition instantiate (h : host) (compiledWasm : wasm_module)
    (wasi : wasi_options) : M L wasm_module :=
  may_throw (instantiate_throws h) (mret compiledWasm).

(** A write of the sandboxed program to descriptor [fd]: appended to the
    file the descriptor is open on, or to the process's own stream. *)
Definition write_fd (fd : N) (text : jsstring) (σ : store) : store :=
  match open_fds σ !! fd with
  | Some p =>
      with_tmp_dirs
        (alter (alter (fun old => old ++ text) p.2) p.1 (tmp_dirs σ)) σ
  | None => mkStore (tmp_dirs σ) (open_fds σ) (inherited σ ++ [(fd, text)])
  end.

(** [wasi.start(instance)] where exits return (the [returnOnExit: true] of
    part_000, Node's default in server.ts), for a run that ends: the
    program runs to its end, writing to the descriptors of the options (1
    and 2 when they are [undefined]); an exit returns its status, a fault
    is thrown.  The call blocks until then; a run without an end is not in
    the model. *)
Definition wasi_start (wasi : wasi_options) (instance : wasm_module) : M L Z :=
  let t := instance wasi in
  set_store (write_fd (default 1 (w_stdout wasi)) (out_written t));;
  set_store (write_fd (default 2 (w_stderr wasi)) (err_written t));;
  match run_ending t with
  | Exits status => mret status
  | Faults e => throw e
  end.
End HostCalls.

(** What [runQuickJsInSandbox] resolves to. *)
Record sandbox_result := mkResult {
  stdout : jsstring;
  stderr : jsstring;
  error : option jsstring
}.

(** An item of the response's [content] and the response itself. *)
Record content_item := mkItem {
  type : jsstring;
  text : jsstring
}.

Record tool_response := mkResponse {
  content : list content_item;
  isError : bool
}.

(** The text of a response: that of its items, in order. *)
Definition content_text (r : tool_response) : jsstring :=
  concat (List.map text (content r)).

(** [!!result.error]. *)
Definition truthy_opt (v : option jsstring) : bool :=
  match v with Some s => truthy s | None => false end.

(* ===================================================================== *)
(** ** Start-up and the serving process *)
(* ===================================================================== *)

(** A handler run from a store, outside any function's locals. *)
Definition run_handler (c : M unit tool_response) (σ : store)
    : (thrown + tool_response) * store :=
  match c (tt, σ) with (r, (_, σ')) => (r, σ') end.

(** What start-up meets: [readFile(QJS_WASM_PATH)] gives the bytes of the
    binary or throws, [WebAssembly.compile] validates and compiles them or
    throws, and [server.connect] may throw. *)
Record boot := mkBoot {
  readFile_wasm : thrown + list N;
  WebAssembly_compile : list N -> thrown + wasm_module;
  connect_throws : option thrown
}.

(** An [async] function at start-up returns, throws, or ends the process
    with [process.exit(code)]. *)
Inductive outcome (A : Type) :=
| Returns (a : A)
| Throws (e : thrown)
| ProcessExit (code : Z).
Arguments Returns {A} a.
Arguments Throws {A} e.
Arguments ProcessExit {A} code.

Definition TOOL_NAME : jsstring := js "run_javascript_code".

(** The server once [startServer] is through: the module its handler
    closes over, and the name and the handler of the tool it registered. *)
Record server := mkServer {
  loaded_module : wasm_module;
  tool_name : jsstring;
  registered_tool : host -> jsstring -> M unit tool_response
}.

(** [server.connect(transport)]. *)
Definition connect (b : boot) (srv : server) : outcome server :=
  match connect_throws b with
  | Some e => Throws e
  | None => Returns srv
  end.

(** The process after start-up: gone with an exit code, or connected and
    taking requests. *)
Inductive process :=
| Exited (code : Z)
| Serving (srv : server).

(** A request reaches the handler only in a serving process. *)
Definition accept (p : process) (h : host) (javascript_code : jsstring)
    (σ : store) : option ((thrown + tool_response) * store) :=
  match p with
  | Exited _ => None
  | Serving srv => Some (run_handler (registered_tool srv h javascript_code) σ)
  end.

(** [startServer().catch((err) => process.exit(1))], the last statement of
    both files. *)
Definition main (startServer : boot -> outcome server) (b : boot) : process :=
  match startServer b with
  | Returns srv => Serving srv
  | Throws err => Exited 1
  | ProcessExit code => Exited code
  end.

(** An object used as a condition is truthy. *)
Definition object_truthy {A} (_ : A) : bool := true.

(* ===================================================================== *)
(** ** src/unnamed/part_000 *)
(* ===================================================================== *)

Module Part000.

(** The [let] variables of [runQuickJsInSandbox] that its [finally] block
    reads. [stdoutPath] and [stderrPath] are assigned once and read only
    in the [try] block, where they are bound below. *)
Record locals := mkLocals {
  tempDir : option jsstring;
  stdoutHandle : option N;
  stderrHandle : option N
}.

Definition no_locals : locals := mkLocals None None None.

Definition set_tempDir (d : jsstring) : M locals unit :=
  set_locals (fun l => mkLocals (Some d) (stdoutHandle l) (stderrHandle l)).
Definition set_stdoutHandle (v : option N) : M locals unit :=
  set_locals (fun l => mkLocals (tempDir l) v (stderrHandle l)).
Definition set_stderrHandle (v : option N) : M locals unit :=
  set_locals (fun l => mkLocals (tempDir l) (stdoutHandle l) v).

(** The object literal of lines 93-101. *)
Definition wasi_config (h : host) (jsCode : jsstring) (stdoutFd stderrFd : N)
    : wasi_options :=
  {| w_version := js "preview1";
     w_args := [js "qjs"; js "-e"; jsCode];
     w_env := process_env h;
     w_stdin := 0;
     w_stdout := Some stdoutFd;
     w_stderr := Some stderrFd;
     w_returnOnExit := Some true |}.

(** Lines 84-139: the [try] block. *)
Definition try_block (h : host) (jsCode : jsstring)
    (compiledWasm : wasm_module) : M locals sandbox_result :=
  dir ← mkdtemp h (join_prefix (os_tmpdir h) (js "quickjs-wasi-"));
  set_tempDir dir;;
  let stdoutPath := join dir (js "stdout.log") in
  let stderrPath := join dir (js "stderr.log") in
  hout ← open_w (open_stdout_throws h) stdoutPath;
  set_stdoutHandle (Some hout);;
  herr ← open_w (open_stderr_throws h) stderrPath;
  set_stderrHandle (Some herr);;
  let stdoutFd := hout in
  let stderrFd := herr in
  wasi ← new_WASI h (wasi_config h jsCode stdoutFd stderrFd);
  instance ← instantiate h compiledWasm wasi;
  started ← try_catch
    (exitCode ← wasi_start wasi instance; mret (inr exitCode))
    (fun wasiError =>
       m1 ← message_or_self wasiError;
       m2 ← message_or_self wasiError;
       mret (inl {| stdout := [];
                    stderr := js "WASI start error: " ++ m1;
                    error := Some (js "Sandbox execution failed during start: "
                                   ++ m2) |}));
  match started with
  | inl early => mret early
  | inr exitCode =>
      close (close_stdout_throws h) hout;;
      set_stdoutHandle None;;
      close (close_stderr_throws h) herr;;
      set_stderrHandle None;;
      capturedStdout ← readFile (readFile_stdout_throws h) stdoutPath;
      capturedStderr ← readFile (readFile_stderr_throws h) stderrPath;
      let executionError :=
        if (exitCode =? 0)%Z then None
        else Some (js "QuickJS process exited with code "
                   ++ number_to_string exitCode
                   ++ js ". Check stderr for details.") in
      mret {| stdout := capturedStdout;
              stderr := capturedStderr;
              error := executionError |}
  end.

(** Lines 140-145: the [catch] block. *)
Definition catch_block (err : thrown) : M locals sandbox_result :=
  m ← get_message err;
  mret {| stdout := [];
          stderr := [];
          error := Some (js "Sandbox setup or execution failed: "
                         ++ template m) |}.

(** Lines 148-152: what the [finally] block attempts. *)
Definition release (h : host) : M locals unit :=
  l ← get_locals;
  match stdoutHandle l with
  | Some fd => close (cleanup_close_stdout_throws h) fd
  | None => mret tt
  end;;
  match stderrHandle l with
  | Some fd => close (cleanup_close_stderr_throws h) fd
  | None => mret tt
  end;;
  match tempDir l with
  | Some dir =>
      if truthy dir then rm_rf (cleanup_rm_throws h) dir else mret tt
  | None => mret tt
  end.

(** Lines 146-155: the [finally] block, which drops what [release]
    throws. *)
Definition finally_block (h : host) : M locals unit :=
  try_catch (release h) (fun cleanupError => mret tt).

Definition runQuickJsInSandbox_body (h : host) (jsCode : jsstring)
    (compiledWasm : wasm_module) : M locals sandbox_result :=
  try_finally
    (try_catch (try_block h jsCode compiledWasm) catch_block)
    (finally_block h).

Definition runQuickJsInSandbox {L} (h : host) (jsCode : jsstring)
    (compiledWasm : wasm_module) : M L sandbox_result :=
  call no_locals (runQuickJsInSandbox_body h jsCode compiledWasm).

(** Lines 186-209: the response built from what the run resolved to. *)
Definition respond (result : sandbox_result) : tool_response :=
  let combinedOutput : jsstring := [] in
  let combinedOutput :=
    if truthy (stdout result)
    then combinedOutput ++ js "--- stdout ---" ++ nl ++ stdout result ++ nl
                        ++ js "--- stdout ---" ++ nl
    else combinedOutput in
  let combinedOutput :=
    if truthy (stderr result)
    then combinedOutput ++ js "--- stderr ---" ++ nl ++ stderr result ++ nl
                        ++ js "--- stderr ---" ++ nl
    else combinedOutput in
  let combinedOutput :=
    match error result with
    | Some e =>
        if truthy e
        then combinedOutput ++ js "--- Execution Error ---" ++ nl ++ e ++ nl
                            ++ js "--- Execution Error ---" ++ nl
        else combinedOutput
    | None => combinedOutput
    end in
  let combinedOutput :=
    if negb (truthy (stdout result)) && negb (truthy (stderr result))
       && negb (truthy_opt (error result))
    then js "--- Execution Success (No Output, Exit Code 0) ---"
    else combinedOutput in
  let isError :=
    js_or (VBool (truthy_opt (error result)))
          (js_and (VStr (stderr result))
                  (VBool (0 <? str_length (trim (stderr result))))) in
  {| content := [ {| type := js "text"; text := trim combinedOutput |} ];
     isError := ToBoolean isError |}.

(** Lines 210-218: the handler's [catch] block. *)
Definition handler_catch {L} (toolError : thrown) : M L tool_response :=
  m ← get_message toolError;
  mret {| content :=
            [ {| type := js "text";
                 text := js "Server error during tool execution: "
                         ++ template m |} ];
          isError := true |}.

(** Lines 179-219: the handler registered for [run_javascript_code]. *)
Definition tool_handler (h : host) (javascript_code : jsstring)
    (compiledWasmModule : wasm_module) : M unit tool_response :=
  try_catch
    (result ← runQuickJsInSandbox h javascript_code compiledWasmModule;
     mret (respond result))
    handler_catch.

(** Lines 63-71: any exception of the [try] block ends the process with
    code 1. *)
Definition loadAndCompileWasm (b : boot) : outcome wasm_module :=
  let try_block : thrown + wasm_module :=
    match readFile_wasm b with
    | inl e => inl e
    | inr wasmBuffer => WebAssembly_compile b wasmBuffer
    end in
  match try_block with
  | inr compiledWasmModule => Returns compiledWasmModule
  | inl error => ProcessExit 1
  end.

(** Lines 158-224. *)
Definition startServer (b : boot) : outcome server :=
  match loadAndCompileWasm b with
  | Returns compiledWasmModule =>
      if negb (object_truthy compiledWasmModule) then ProcessExit 1
      else
        connect b
          (mkServer compiledWasmModule TOOL_NAME
             (fun h javascript_code =>
                tool_handler h javascript_code compiledWasmModule))
  | Throws e => Throws e
  | ProcessExit code => ProcessExit code
  end.

End Part000.

(* ===================================================================== *)
(** ** src/server.ts *)
(* ===================================================================== *)

Module ServerTs.

(** The [console] calls of the file are logging and are left out, except
    for a property they read that can throw.  They write log lines to the
    process's own stdout and stderr ([console.error] at line 96 on the
    set-up failure path, for one); [inherited] records the writes of the
    sandboxed program only, so nothing below says what else reaches those
    two streams. *)

(** The [let] variables of [runQuickJsInSandbox] (lines 50-51). *)
Record locals := mkLocals {
  stdoutFd : option N;
  stderrFd : option N
}.

Definition no_locals : locals := mkLocals None None.

(** The object literal of lines 55-62. *)
Definition wasi_config (h : host) (jsCode : jsstring) (l : locals)
    : wasi_options :=
  {| w_version := js "preview1";
     w_args := [js "qjs"; js "-e"; jsCode];
     w_env := process_env h;
     w_stdin := 0;
     w_stdout := stdoutFd l;
     w_stderr := stderrFd l;
     w_returnOnExit := None |}.

(** Lines 54-94: the [try] block.  The value [wasi.start] returns is
    dropped, and [console.warn] reads [wasiError.message]. *)
Definition try_block (h : host) (jsCode : jsstring)
    (compiledWasm : wasm_module) : M locals sandbox_result :=
  l ← get_locals;
  wasi ← new_WASI h (wasi_config h jsCode l);
  instance ← instantiate h compiledWasm wasi;
  try_catch
    (wasi_start wasi instance;; mret tt)
    (fun wasiError => get_message wasiError;; mret tt);;
  set_locals (fun l => mkLocals None (stderrFd l));;
  set_locals (fun l => mkLocals (stdoutFd l) None);;
  mret {| stdout := []; stderr := []; error := None |}.

(** Lines 95-105: the [catch] block. *)
Definition catch_block (err : thrown) : M locals sandbox_result :=
  let capturedStderrOnError : jsstring := [] in
  m ← get_message err;
  mret {| stdout := [];
          stderr := capturedStderrOnError;
          error := Some (js "Sandbox execution failed: " ++ template m) |}.

Definition runQuickJsInSandbox {L} (h : host) (jsCode : jsstring)
    (compiledWasm : wasm_module) : M L sandbox_result :=
  call no_locals
    (try_catch (try_block h jsCode compiledWasm) catch_block).

(** Lines 140-172: the response built from what the run resolved to.
    [isError] is computed and the response carries [false]. *)
Definition respond (result : sandbox_result) : tool_response :=
  let combinedOutput : jsstring := [] in
  let combinedOutput :=
    if truthy (stdout result)
    then combinedOutput ++ js "--- stdout ---" ++ nl ++ stdout result ++ nl
    else combinedOutput in
  let combinedOutput :=
    if truthy (stderr result)
    then combinedOutput ++ js "--- stderr ---" ++ nl ++ stderr result ++ nl
    else combinedOutput in
  let combinedOutput :=
    match error result with
    | Some e =>
        if truthy e
        then combinedOutput ++ js "--- Execution Error ---" ++ nl ++ e ++ nl
        else combinedOutput
    | None => combinedOutput
    end in
  let combinedOutput :=
    if negb (truthy (stdout result)) && negb (truthy (stderr result))
       && negb (truthy_opt (error result))
    then js "--- Execution Success (No Output) ---"
    else combinedOutput in
  let isError :=
    js_or (VBool (truthy_opt (error result)))
          (js_and (VStr (stderr result))
                  (VBool (0 <? str_length (trim (stderr result))))) in
  {| content := [ {| type := js "text"; text := trim combinedOutput |} ];
     isError := false |}.

(** Lines 173-185: the handler's [catch] block. *)
Definition handler_catch {L} (toolError : thrown) : M L tool_response :=
  m ← get_message toolError;
  mret {| content :=
            [ {| type := js "text";
                 text := js "Server error during tool execution: "
                         ++ template m |} ];
          isError := true |}.

(** Lines 132-186: the handler registered for [run_javascript_code]. *)
Definition tool_handler (h : host) (javascript_code : jsstring)
    (compiledWasmModule : wasm_module) : M unit tool_response :=
  try_catch
    (result ← runQuickJsInSandbox h javascript_code compiledWasmModule;
     mret (respond result))
    handler_catch.

(** Lines 14-35: any exception of the [try] block ends the process with
    code 1. *)
Definition loadAndCompileWasm (b : boot) : outcome wasm_module :=
  let try_block : thrown + wasm_module :=
    match readFile_wasm b with
    | inl e => inl e
    | inr wasmBuffer => WebAssembly_compile b wasmBuffer
    end in
  match try_block with
  | inr compiledWasmModule => Returns compiledWasmModule
  | inl error => ProcessExit 1
  end.

(** Lines 109-201. *)
Definition startServer (b : boot) : outcome server :=
  match loadAndCompileWasm b with
  | Returns compiledWasmModule =>
      connect b
        (mkServer compiledWasmModule TOOL_NAME
           (fun h javascript_code =>
              tool_handler h javascript_code compiledWasmModule))
  | Throws e => Throws e
  | ProcessExit code => ProcessExit code
  end.

End ServerTs.

(* ===================================================================== *)
(** ** Vocabulary of the properties *)
(* ===================================================================== *)

Arguments js : simpl never.

(** The first code unit exists and is not white space. *)
Definition starts_solid (s : jsstring) : bool :=
  match s with [] => false | c :: _ => negb (isWhiteSpace c) end.

(** The last code unit exists and is not white space. *)
Definition ends_solid (s : jsstring) : bool := starts_solid (rev s).

(** A host call that does not throw. *)
Definition succeeds (o : option thrown) : bool :=
  match o with None => true | Some _ => false end.

(** The directory [mkdtemp] names in part_000. *)
Definition tempDir_name (h : host) (suffix : jsstring) : jsstring :=
  join_prefix (os_tmpdir h) (js "quickjs-wasi-") ++ suffix.

(** part_000, lines 84-106: the capture channel opens and the sandbox is
    instantiated. *)
Definition setup_succeeds (h : host) (σ : store) : bool :=
  match mkdtemp_result h with
  | inl _ => false
  | inr suffix =>
      bool_decide (tmp_dirs σ !! tempDir_name h suffix = None)
      && succeeds (open_stdout_throws h) && succeeds (open_stderr_throws h)
      && succeeds (new_WASI_throws h) && succeeds (instantiate_throws h)
  end.

(** part_000, lines 121-127: the handles close and the two files are read
    back. *)
Definition capture_succeeds (h : host) : bool :=
  succeeds (close_stdout_throws h) && succeeds (close_stderr_throws h)
  && succeeds (readFile_stdout_throws h) && succeeds (readFile_stderr_throws h).

(** part_000, lines 148-152: the calls of the [finally] block go through. *)
Definition cleanup_succeeds (h : host) : bool :=
  succeeds (cleanup_close_stdout_throws h)
  && succeeds (cleanup_close_stderr_throws h)
  && succeeds (cleanup_rm_throws h).

(** The descriptors [open] hands out in part_000, from the store the run
    starts in. *)
Definition stdout_fd (σ : store) : N := fresh (dom (open_fds σ)).
Definition stderr_fd (σ : store) : N :=
  fresh ({[stdout_fd σ]} ∪ dom (open_fds σ)).

(** What the sandboxed program does in the run part_000 starts. *)
Definition started_run (h : host) (jsCode : jsstring) (m : wasm_module)
    (σ : store) : run_trace :=
  m (Part000.wasi_config h jsCode (stdout_fd σ) (stderr_fd σ)).

(** What the sandboxed program does in the run server.ts starts. *)
Definition started_run_ts (h : host) (jsCode : jsstring) (m : wasm_module)
    : run_trace :=
  m (ServerTs.wasi_config h jsCode ServerTs.no_locals).

(** part_000, lines 129-133: the message for an exit status. *)
Definition exit_error (exitCode : Z) : option jsstring :=
  if (exitCode =? 0)%Z then None
  else Some (js "QuickJS process exited with code "
             ++ number_to_string exitCode
             ++ js ". Check stderr for details.").

(** The message naming an exit status. *)
Definition exit_message (exitCode : Z) : jsstring :=
  js "QuickJS process exited with code " ++ number_to_string exitCode
  ++ js ". Check stderr for details.".

(** The store a call of part_000's [runQuickJsInSandbox] leaves. *)
Definition store_after (h : host) (jsCode : jsstring) (m : wasm_module)
    (σ : store) : store :=
  snd (snd (Part000.runQuickJsInSandbox (L:=unit) h jsCode m (tt, σ))).

(** No temporary directory, file or descriptor of the call is left: the
    temporary store and the descriptor table are those before the call. *)
Definition released (σ σ' : store) : Prop :=
  tmp_dirs σ' = tmp_dirs σ /\ open_fds σ' = open_fds σ.

(** The single text item of a response. *)
Definition text_response (t : jsstring) (e : bool) : tool_response :=
  {| content := [ {| type := js "text"; text := t |} ]; isError := e |}.

(** The text of the handler's error response for a thrown value. *)
Definition server_error_text (m : option jsstring) : jsstring :=
  js "Server error during tool execution: " ++ template m.

(** The response a handler run ends with, when it throws nothing. *)
Definition response_of (x : (thrown + tool_response) * store)
    : option tool_response :=
  match x.1 with inr r => Some r | inl _ => None end.

(** Start-up fails to read or to compile the binary. *)
Definition load_fails (b : boot) : bool :=
  match readFile_wasm b with
  | inl _ => true
  | inr wasmBuffer =>
      match WebAssembly_compile b wasmBuffer with
      | inl _ => true
      | inr _ => false
      end
  end.

(** *** Concrete hosts, stores and programs *)

Definition calm_host : host :=
  {| process_env := [(js "HOME", js "/root")];
     os_tmpdir := js "/tmp";
     mkdtemp_result := inr (js "a1B2c3");
     open_stdout_throws := None;
     open_stderr_throws := None;
     new_WASI_throws := None;
     instantiate_throws := None;
     close_stdout_throws := None;
     close_stderr_throws := None;
     readFile_stdout_throws := None;
     readFile_stderr_throws := None;
     cleanup_close_stdout_throws := None;
     cleanup_close_stderr_throws := None;
     cleanup_rm_throws := None |}.

Definition with_env (env : list (jsstring * jsstring)) (h : host) : host :=
  mkHost env (os_tmpdir h) (mkdtemp_result h) (open_stdout_throws h)
    (open_stderr_throws h) (new_WASI_throws h) (instantiate_throws h)
    (close_stdout_throws h) (close_stderr_throws h)
    (readFile_stdout_throws h) (readFile_stderr_throws h)
    (cleanup_close_stdout_throws h) (cleanup_close_stderr_throws h)
    (cleanup_rm_throws h).

(** [rm] fails in the [finally] block. *)
Definition rm_fails_host : host :=
  mkHost (process_env calm_host) (os_tmpdir calm_host)
    (mkdtemp_result calm_host) None None None None None None None None
    None None
    (Some (error_of (js "Error") (js "EBUSY: resource busy or locked"))).

(** [mkdtemp] rejects with [undefined]. *)
Definition undefined_host : host :=
  mkHost (process_env calm_host) (os_tmpdir calm_host)
    (inl (ThrownNullish (js "undefined")))
    None None None None None None None None None None None.

Definition empty_store : store := mkStore ∅ ∅ [].

(** [console.log('hi')]. *)
Definition prints_hi : wasm_module :=
  fun _ => mkTrace (js "hi" ++ nl) [] (Exits 0).

(** A script that writes a warning to standard error and exits 0. *)
Definition warns : wasm_module :=
  fun _ => mkTrace [] (js "warn" ++ nl) (Exits 0).

(** [throw new Error('boom')]: QuickJS reports it and exits 1. *)
Definition throws_boom : wasm_module :=
  fun _ => mkTrace [] (js "Error: boom" ++ nl) (Exits 1).

(** A script that writes nothing and exits 0. *)
Definition silent : wasm_module :=
  fun _ => mkTrace [] [] (Exits 0).

(** A script that prints and then exhausts memory: the module aborts on
    [unreachable] and [wasi.start] throws a [RuntimeError]. *)
Definition prints_then_traps_code : jsstring :=
  js "console.log('partial output'); for (;;) new Array(1e9)".
Definition prints_then_traps : wasm_module :=
  fun _ => mkTrace (js "partial output" ++ nl) []
             (Faults (error_of (js "RuntimeError") (js "unreachable"))).

(** A script that prints the values of its environment. *)
Definition prints_env : wasm_module :=
  fun o => mkTrace (concat (List.map snd (w_env o))) [] (Exits 0).

(** The binary is missing. *)
Definition missing_binary : boot :=
  {| readFile_wasm := inl ENOENT;
     WebAssembly_compile := fun _ => inr silent;
     connect_throws := None |}.

(** *** The outcome of a run, path by path *)

(** The first exception of a sequence of host calls, in program order. *)
Fixpoint first_thrown (l : list (option thrown)) : option thrown :=
  match l with
  | [] => None
  | Some e :: _ => Some e
  | None :: r => first_thrown r
  end.

(** part_000, lines 84-106: what the set-up of a run throws first, if
    anything. *)
Definition setup_error (h : host) (σ : store) : option thrown :=
  match mkdtemp_result h with
  | inl e => Some e
  | inr suffix =>
      match tmp_dirs σ !! tempDir_name h suffix with
      | Some _ => Some EEXIST
      | None =>
          first_thrown [open_stdout_throws h; open_stderr_throws h;
                        new_WASI_throws h; instantiate_throws h]
      end
  end.

(** part_000, lines 121-127: what closing the handles and reading the files
    back throws first, if anything. *)
Definition capture_error (h : host) : option thrown :=
  first_thrown [close_stdout_throws h; close_stderr_throws h;
                readFile_stdout_throws h; readFile_stderr_throws h].

(** What a call of [runQuickJsInSandbox] gives its caller: the value it
    resolves to, or what it throws. *)
Definition run_result (h : host) (jsCode : jsstring) (m : wasm_module)
    (σ : store) : thrown + sandbox_result :=
  fst (Part000.runQuickJsInSandbox (L:=unit) h jsCode m (tt, σ)).

Definition run_result_ts (h : host) (jsCode : jsstring) (m : wasm_module)
    (σ : store) : thrown + sandbox_result :=
  fst (ServerTs.runQuickJsInSandbox (L:=unit) h jsCode m (tt, σ)).

(** The store a call of server.ts's [runQuickJsInSandbox] leaves. *)
Definition store_after_ts (h : host) (jsCode : jsstring) (m : wasm_module)
    (σ : store) : store :=
  snd (snd (ServerTs.runQuickJsInSandbox (L:=unit) h jsCode m (tt, σ))).

(** What the [catch] block of part_000 (lines 140-145) makes of an
    exception. *)
Definition caught (e : thrown) : thrown + sandbox_result :=
  match e with
  | Thrown msg _ =>
      inr {| stdout := []; stderr := [];
             error := Some (js "Sandbox setup or execution failed: "
                            ++ template msg) |}
  | ThrownNullish what => inl (TypeError_reading what)
  end.

(** What the [catch] block of server.ts (lines 95-105) makes of an
    exception. *)
Definition caught_ts (e : thrown) : thrown + sandbox_result :=
  match e with
  | Thrown msg _ =>
      inr {| stdout := []; stderr := [];
             error := Some (js "Sandbox execution failed: " ++ template msg) |}
  | ThrownNullish what => inl (TypeError_reading what)
  end.

(** The result of part_000's [runQuickJsInSandbox] read path by path: the
    first failure of the set-up, else how the sandbox ended, else the first
    failure of the read-back, else the captured streams. *)
Definition path_result (h : host) (jsCode : jsstring) (m : wasm_module)
    (σ : store) : thrown + sandbox_result :=
  match setup_error h σ with
  | Some e => caught e
  | None =>
      match run_ending (started_run h jsCode m σ) with
      | Faults (Thrown msg txt) =>
          inr {| stdout := [];
                 stderr := js "WASI start error: "
                           ++ match msg with Some s => s | None => txt end;
                 error := Some (js "Sandbox execution failed during start: "
                                ++ match msg with Some s => s | None => txt end)
              |}
      | Faults (ThrownNullish what) => caught (TypeError_reading what)
      | Exits n =>
          match capture_error h with
          | Some e => caught e
          | None =>
              inr {| stdout := out_written (started_run h jsCode m σ);
                     stderr := err_written (started_run h jsCode m σ);
                     error := exit_error n |}
          end
      end
  end.

(** The same for server.ts. *)
Definition path_result_ts (h : host) (jsCode : jsstring) (m : wasm_module)
    : thrown + sandbox_result :=
  match first_thrown [new_WASI_throws h; instantiate_throws h] with
  | Some e => caught_ts e
  | None =>
      match run_ending (started_run_ts h jsCode m) with
      | Faults (ThrownNullish what) => caught_ts (TypeError_reading what)
      | _ => inr {| stdout := []; stderr := []; error := None |}
      end
  end.

(** A host with other answers for the calls of the [finally] block. *)
Definition with_cleanup (k1 k2 k3 : option thrown) (h : host) : host :=
  mkHost (process_env h) (os_tmpdir h) (mkdtemp_result h)
    (open_stdout_throws h) (open_stderr_throws h) (new_WASI_throws h)
    (instantiate_throws h) (close_stdout_throws h) (close_stderr_throws h)
    (readFile_stdout_throws h) (readFile_stderr_throws h) k1 k2 k3.

(** One request: the host's answers during it, the code and the module. *)
Record invocation := mkInvocation {
  inv_host : host;
  inv_code : jsstring;
  inv_module : wasm_module
}.

(** Requests served one after the other by part_000, each from the store
    the one before left. *)
Definition run_all (l : list invocation) (σ : store) : store :=
  fold_left
    (fun σ i => store_after (inv_host i) (inv_code i) (inv_module i) σ) l σ.

(** [open] fails for the stdout file: too many open files. *)
Definition open_fails_host : host :=
  mkHost (process_env calm_host) (os_tmpdir calm_host)
    (mkdtemp_result calm_host)
    (Some (error_of (js "Error") (js "EMFILE: too many open files")))
    None None None None None None None None None None.

(** [readFile] fails for the stderr file. *)
Definition read_fails_host : host :=
  mkHost (process_env calm_host) (os_tmpdir calm_host)
    (mkdtemp_result calm_host) None None None None None None None
    (Some (error_of (js "Error") (js "EIO: i/o error")))
    None None None.

(** [WebAssembly.instantiate] rejects: an import is missing. *)
Definition link_fails_host : host :=
  mkHost (process_env calm_host) (os_tmpdir calm_host)
    (mkdtemp_result calm_host) None None None
    (Some (error_of (js "LinkError") (js "import object field is missing")))
    None None None None None None None.

(** A script whose run makes [wasi.start] throw [undefined]. *)
Definition throws_undefined : wasm_module :=
  fun _ => mkTrace (js "partial output" ++ nl) []
             (Faults (ThrownNullish (js "undefined"))).

(** A script that writes a lone line feed to standard error and exits 0. *)
Definition blank_warning : wasm_module :=
  fun _ => mkTrace (js "ok" ++ nl) nl (Exits 0).

(** A store where another run's directory and descriptor are live. *)
Definition busy_store : store :=
  mkStore {[ js "/tmp/quickjs-wasi-zzzzzz" := {[ js "stdout.log" := js "x" ]} ]}
    {[ 0 := (js "/tmp/quickjs-wasi-zzzzzz", js "stdout.log") ]} [].

(* ===================================================================== *)
(** ** Lemmas on strings *)
(* ===================================================================== *)

Lemma trimStart_solid (s : jsstring) :
  starts_solid s = true -> trimStart s = s.
Proof.
  destruct s as [|c r]; simpl; [discriminate|].
  destruct (isWhiteSpace c); [discriminate|reflexivity].
Qed.

Lemma starts_solid_app (a b : jsstring) :
  starts_solid a = true -> starts_solid (a ++ b) = true.
Proof. destruct a; simpl; [discriminate|auto]. Qed.

Lemma trimEnd_solid (s : jsstring) :
  ends_solid s = true -> trimEnd s = s.
Proof.
  unfold ends_solid, trimEnd. intros H.
  rewrite (trimStart_solid _ H). apply rev_involutive.
Qed.

Lemma trimEnd_nl (s : jsstring) : trimEnd (s ++ nl) = trimEnd s.
Proof. unfold trimEnd, nl. rewrite rev_app_distr. reflexivity. Qed.

Lemma ends_solid_app (a b : jsstring) :
  ends_solid b = true -> ends_solid (a ++ b) = true.
Proof.
  unfold ends_solid. rewrite rev_app_distr. apply starts_solid_app.
Qed.

Lemma startsWith_app (n b : jsstring) : startsWith (n ++ b) n = true.
Proof.
  induction n as [|x n IH]; simpl; [reflexivity|].
  rewrite N.eqb_refl. exact IH.
Qed.

Lemma includes_head (n b : jsstring) : includes (n ++ b) n = true.
Proof.
  destruct (n ++ b) eqn:E; simpl; rewrite <- E, startsWith_app; reflexivity.
Qed.

Lemma includes_skip (a t n : jsstring) :
  includes t n = true -> includes (a ++ t) n = true.
Proof.
  intros H. induction a as [|x a IH]; simpl; [exact H|].
  rewrite IH. apply orb_true_r.
Qed.

(** [includes] is the occurrence of a contiguous run. *)
Lemma includes_spec (s n : jsstring) :
  includes s n = true <-> exists a b, s = a ++ n ++ b.
Proof.
  split.
  - induction s as [|c s IH]; simpl; intros H.
    + rewrite orb_false_r in H. destruct n; [|discriminate].
      exists [], []. reflexivity.
    + apply orb_true_iff in H as [H|H].
      * assert (Hp : forall (p t : jsstring),
                  startsWith t p = true -> exists b, t = p ++ b).
        { clear. induction p as [|x p IHp]; intros t Ht.
          - exists t. reflexivity.
          - destruct t as [|y t]; simpl in Ht; [discriminate|].
            apply andb_true_iff in Ht as [Hxy Ht].
            apply N.eqb_eq in Hxy. subst y.
            destruct (IHp _ Ht) as [b ->]. exists b. reflexivity. }
        destruct (Hp n (c :: s) H) as [b Hb]. exists [], b. exact Hb.
      * destruct (IH H) as (a & b & ->). exists (c :: a), b. reflexivity.
  - intros (a & b & ->). apply includes_skip, includes_head.
Qed.

Lemma truthy_of_trim (s : jsstring) : trim s <> [] -> truthy s = true.
Proof. destruct s; [intros H; now elim H|reflexivity]. Qed.

Lemma length_pos_of_nonempty (s : jsstring) :
  s <> [] -> (0 <? str_length s) = true.
Proof.
  destruct s; [intros H; now elim H|]. intros _.
  unfold str_length. apply N.ltb_lt. simpl length. lia.
Qed.

Lemma trim_app_nl (t : jsstring) :
  starts_solid t = true -> ends_solid t = true -> trim (t ++ nl) = t.
Proof.
  intros H1 H2. unfold trim.
  rewrite (trimStart_solid (t ++ nl)) by now apply starts_solid_app.
  rewrite trimEnd_nl. now apply trimEnd_solid.
Qed.

Lemma content_text_single (t : jsstring) (e : bool) :
  content_text (text_response t e) = t.
Proof. unfold content_text, text_response. simpl. apply app_nil_r. Qed.

(** A combined output made of framed sections: left-nest it, drop the
    closing line feed. *)
Ltac frame_trim :=
  rewrite ?app_nil_l; rewrite !app_assoc;
  rewrite trim_app_nl;
  [ | repeat apply starts_solid_app; reflexivity
    | apply ends_solid_app; reflexivity ].

(** The needle is one of the pieces of a concatenation. *)
Ltac find_piece :=
  rewrite <- ?app_assoc;
  repeat first [ apply includes_head | apply includes_skip ].

(* ===================================================================== *)
(** ** The response part_000 builds from a result *)
(* ===================================================================== *)

Lemma isError_of_stderr (e : option jsstring) (err : jsstring) :
  trim err <> [] ->
  ToBoolean
    (js_or (VBool (truthy_opt e))
       (js_and (VStr err) (VBool (0 <? str_length (trim err))))) = true.
Proof.
  intros H. unfold js_or, js_and. cbn [ToBoolean].
  destruct (truthy_opt e); [reflexivity|].
  rewrite (truthy_of_trim _ H). cbn [ToBoolean].
  now apply length_pos_of_nonempty.
Qed.

Lemma isError_of_error (e : jsstring) (err : jsstring) :
  truthy e = true ->
  ToBoolean
    (js_or (VBool (truthy_opt (Some e)))
       (js_and (VStr err) (VBool (0 <? str_length (trim err))))) = true.
Proof.
  intros H. unfold js_or. cbn [truthy_opt ToBoolean]. now rewrite H.
Qed.

Lemma respond_unfold (out err : jsstring) (e : option jsstring) :
  Part000.respond (mkResult out err e)
  = text_response
      (trim
         (let c0 : jsstring := [] in
          let c1 := if truthy out
                    then c0 ++ js "--- stdout ---" ++ nl ++ out ++ nl
                            ++ js "--- stdout ---" ++ nl
                    else c0 in
          let c2 := if truthy err
                    then c1 ++ js "--- stderr ---" ++ nl ++ err ++ nl
                            ++ js "--- stderr ---" ++ nl
                    else c1 in
          let c3 := match e with
                    | Some t =>
                        if truthy t
                        then c2 ++ js "--- Execution Error ---" ++ nl ++ t ++ nl
                                ++ js "--- Execution Error ---" ++ nl
                        else c2
                    | None => c2
                    end in
          if negb (truthy out) && negb (truthy err) && negb (truthy_opt e)
          then js "--- Execution Success (No Output, Exit Code 0) ---"
          else c3))
      (ToBoolean
         (js_or (VBool (truthy_opt e))
            (js_and (VStr err) (VBool (0 <? str_length (trim err)))))).
Proof. reflexivity. Qed.

(** Non-blank stderr in the result: an error response that carries it. *)
Lemma respond_stderr (r : sandbox_result) :
  trim (stderr r) <> [] ->
  isError (Part000.respond r) = true
  /\ includes (content_text (Part000.respond r)) (stderr r) = true.
Proof.
  destruct r as [out err e]. cbn [stderr]. intros H.
  rewrite respond_unfold, content_text_single.
  split; [now apply isError_of_stderr|].
  pose proof (truthy_of_trim _ H) as Ht. rewrite Ht.
  cbv zeta.
  destruct (truthy out) eqn:Ho;
    destruct e as [t|];
    [destruct (truthy t) eqn:Hte| |destruct (truthy t) eqn:Hte|];
    cbn [negb andb truthy_opt]; try rewrite Hte; cbn [negb andb];
    frame_trim; find_piece.
Qed.

(** An error text in the result: an error response that carries it. *)
Lemma respond_error (r : sandbox_result) (t : jsstring) :
  error r = Some t -> truthy t = true ->
  isError (Part000.respond r) = true
  /\ includes (content_text (Part000.respond r)) t = true.
Proof.
  destruct r as [out err e]. cbn [error]. intros -> Ht.
  rewrite respond_unfold, content_text_single.
  split; [now apply isError_of_error|].
  cbv zeta. cbn [truthy_opt]. rewrite Ht.
  destruct (truthy out) eqn:Ho; destruct (truthy err) eqn:He;
    cbn [negb andb]; frame_trim; find_piece.
Qed.

(** Standard output alone: the text between its two delimiter lines. *)
Lemma respond_stdout_only (out : jsstring) :
  out <> [] ->
  Part000.respond (mkResult out [] None)
  = text_response
      (js "--- stdout ---" ++ nl ++ out ++ nl ++ js "--- stdout ---") false.
Proof.
  intros H. rewrite respond_unfold.
  destruct out as [|c o]; [now elim H|].
  cbv zeta. cbn [truthy truthy_opt negb andb].
  f_equal. frame_trim. now rewrite <- !app_assoc.
Qed.

(** Nothing in the result: the marker. *)
Lemma respond_silent :
  Part000.respond (mkResult [] [] None)
  = text_response (js "--- Execution Success (No Output, Exit Code 0) ---")
      false.
Proof. vm_compute. reflexivity. Qed.

(* ===================================================================== *)
(** ** Running the monad by hand *)
(* ===================================================================== *)

Lemma fresh_fd_unused (fds : gmap N (jsstring * jsstring)) :
  fds !! fresh (dom fds) = None.
Proof. apply not_elem_of_dom, is_fresh. Qed.

Lemma fresh_fd_distinct (fds : gmap N (jsstring * jsstring)) :
  fresh ({[fresh (dom fds)]} ∪ dom fds) <> fresh (dom fds).
Proof.
  intros E.
  pose proof (is_fresh ({[fresh (dom fds)]} ∪ dom fds)) as Hf.
  rewrite E in Hf. apply Hf. set_solver.
Qed.

Lemma second_fd_unused (fds : gmap N (jsstring * jsstring)) :
  fds !! fresh ({[fresh (dom fds)]} ∪ dom fds) = None.
Proof.
  apply not_elem_of_dom. intros Hin.
  apply (is_fresh ({[fresh (dom fds)]} ∪ dom fds)). set_solver.
Qed.

Lemma second_fd_eq (fds : gmap N (jsstring * jsstring)) p :
  fresh (dom (<[fresh (dom fds) := p]> fds))
  = fresh ({[fresh (dom fds)]} ∪ dom fds).
Proof. now rewrite dom_insert_L. Qed.

Lemma log_names_distinct : js "stderr.log" <> js "stdout.log".
Proof. intros E. vm_compute in E. discriminate E. Qed.

Lemma tempDir_truthy (t s : jsstring) :
  truthy (join_prefix t (js "quickjs-wasi-") ++ s) = true.
Proof. unfold join_prefix. destruct t; reflexivity. Qed.

(** Unfold the program down to the host's answers and the maps. *)
Ltac red_run :=
  cbv beta iota zeta delta
    [Part000.runQuickJsInSandbox Part000.runQuickJsInSandbox_body
     Part000.try_block Part000.catch_block Part000.finally_block
     Part000.release Part000.set_tempDir Part000.set_stdoutHandle
     Part000.set_stderrHandle Part000.tempDir Part000.stdoutHandle
     Part000.stderrHandle Part000.no_locals Part000.wasi_config
     ServerTs.runQuickJsInSandbox ServerTs.try_block ServerTs.catch_block
     ServerTs.no_locals ServerTs.wasi_config ServerTs.stdoutFd
     ServerTs.stderrFd
     call try_finally try_catch
     mkdtemp open_w close readFile rm_rf new_WASI instantiate wasi_start
     may_throw get_store set_store get_locals set_locals
     mbind mret M_bind M_ret bind ret throw get_message message_or_self
     TypeError_reading error_of
     fst snd join with_tmp_dirs with_open_fds tmp_dirs open_fds inherited
     option_bind default w_stdout w_stderr write_fd].

Ltac use_eq :=
  match goal with
  | H : ?x = _ |- context [match ?x with _ => _ end] => rewrite H
  end.

Ltac distinct_keys :=
  first [ apply fresh_fd_distinct | apply log_names_distinct
        | apply not_eq_sym, fresh_fd_distinct
        | apply not_eq_sym, log_names_distinct ].

Ltac map_step :=
  first
    [ rewrite second_fd_eq
    | rewrite lookup_insert_eq
    | rewrite lookup_alter_eq
    | rewrite fresh_fd_unused
    | rewrite second_fd_unused
    | rewrite lookup_insert_ne by distinct_keys
    | rewrite lookup_alter_ne by distinct_keys
    | progress cbn [fmap option_fmap option_map] ].

Ltac case_on x :=
  match goal with
  | |- context [match x with _ => _ end] => destruct x eqn:?
  end.

Ltac case_thrown :=
  match goal with
  | |- context [match ?e with Thrown _ _ => _ | ThrownNullish _ => _ end] =>
      is_var e; destruct e
  end.

Ltac case_lookup :=
  match goal with
  | tmp : gmap (list N) (gmap (list N) (list N))
    |- context [match ?tmp !! ?d with _ => _ end] => destruct (tmp !! d) eqn:?
  end.

Ltac case_ending :=
  match goal with
  | |- context [match run_ending ?t with _ => _ end] =>
      destruct (run_ending t) eqn:?
  end.

(** The next host call on the path, in program order. *)
Ltac split_next h :=
  first
    [ case_on (mkdtemp_result h) | case_lookup
    | case_on (open_stdout_throws h) | case_on (open_stderr_throws h)
    | case_on (new_WASI_throws h) | case_on (instantiate_throws h)
    | case_ending
    | case_on (close_stdout_throws h) | case_on (close_stderr_throws h)
    | case_on (readFile_stdout_throws h) | case_on (readFile_stderr_throws h)
    | case_thrown
    | case_on (cleanup_close_stdout_throws h)
    | case_on (cleanup_close_stderr_throws h)
    | case_on (cleanup_rm_throws h) ].

Ltac exec_step := first [ use_eq | map_step | rewrite tempDir_truthy ].
Ltac exec_all h :=
  repeat (cbv beta iota zeta; first [ exec_step | split_next h ]);
  cbv beta iota zeta.

(** Turn the boolean premises on the host into equations. *)
Ltac host_premises :=
  repeat match goal with
  | H : _ && _ = true |- _ => apply andb_true_iff in H as [? ?]
  | H : bool_decide _ = true |- _ => apply bool_decide_eq_true in H
  | H : succeeds ?o = true |- _ => destruct o eqn:?; [discriminate H|clear H]
  end.

Ltac map_close :=
  apply map_eq; intros ?i;
  repeat match goal with
  | |- context [delete ?k _ !! ?i] =>
      destruct (decide (k = i)); simplify_map_eq
  | |- context [alter _ ?k _ !! ?i] =>
      destruct (decide (k = i)); simplify_map_eq
  | |- context [<[?k:=_]> _ !! ?i] =>
      destruct (decide (k = i)); simplify_map_eq
  end;
  first [ done | symmetry; apply fresh_fd_unused
        | symmetry; apply second_fd_unused ].

(* ===================================================================== *)
(** ** The paths of part_000's runQuickJsInSandbox *)
(* ===================================================================== *)

(** The sandbox is started and exits, and the capture is read back. *)
Lemma run_exits (h : host) (jsCode : jsstring) (m : wasm_module) (σ : store)
    (n : Z) :
  setup_succeeds h σ = true -> capture_succeeds h = true ->
  run_ending (started_run h jsCode m σ) = Exits n ->
  exists σ', Part000.runQuickJsInSandbox (L:=unit) h jsCode m (tt, σ)
    = (inr {| stdout := out_written (started_run h jsCode m σ);
              stderr := err_written (started_run h jsCode m σ);
              error := exit_error n |}, (tt, σ')).
Proof.
  unfold setup_succeeds, capture_succeeds, started_run, tempDir_name.
  destruct (mkdtemp_result h) as [|suffix] eqn:Hmk; [discriminate|].
  intros Hs Hc Hend. host_premises.
  destruct σ as [tmp fds inh].
  cbv beta iota delta
    [stdout_fd stderr_fd Part000.wasi_config tmp_dirs open_fds] in *.
  red_run. exec_all h; (eexists; reflexivity).
Qed.

(** The sandbox is started and [wasi.start] throws a value that is not
    [null] or [undefined]: the result is built from the exception alone. *)
Lemma run_faults (h : host) (jsCode : jsstring) (m : wasm_module) (σ : store)
    (msg : option jsstring) (txt : jsstring) :
  setup_succeeds h σ = true ->
  run_ending (started_run h jsCode m σ) = Faults (Thrown msg txt) ->
  exists σ', Part000.runQuickJsInSandbox (L:=unit) h jsCode m (tt, σ)
    = (inr {| stdout := [];
              stderr := js "WASI start error: "
                        ++ match msg with Some s => s | None => txt end;
              error := Some (js "Sandbox execution failed during start: "
                             ++ match msg with Some s => s | None => txt end)
           |}, (tt, σ')).
Proof.
  unfold setup_succeeds, started_run, tempDir_name.
  destruct (mkdtemp_result h) as [|suffix] eqn:Hmk; [discriminate|].
  intros Hs Hend. host_premises.
  destruct σ as [tmp fds inh].
  cbv beta iota delta
    [stdout_fd stderr_fd Part000.wasi_config tmp_dirs open_fds] in *.
  red_run. exec_all h; (eexists; reflexivity).
Qed.

(** Whatever the host and the program do, when the calls of the [finally]
    block go through nothing of the call is left. *)
Lemma run_releases (h : host) (jsCode : jsstring) (m : wasm_module)
    (σ : store) :
  cleanup_succeeds h = true -> released σ (store_after h jsCode m σ).
Proof.
  unfold cleanup_succeeds, store_after, released. intros Hc. host_premises.
  destruct σ as [tmp fds inh].
  red_run. exec_all h.
  all: cbn [snd tmp_dirs open_fds].
  all: split; first [ reflexivity | map_close ].
Qed.

(* ===================================================================== *)
(** ** What escapes runQuickJsInSandbox, and the handler around it *)
(* ===================================================================== *)

Lemma get_message_throws {L} (e e' : thrown) (s s' : L * store) :
  get_message e s = (inl e', s') -> exists what, e' = TypeError_reading what.
Proof.
  destruct e as [msg txt|what]; cbn; unfold mret, M_ret, ret, throw;
    intros H; inversion H. now exists what.
Qed.

Lemma bind_throws {L A B} (c : M L A) (k : A -> M L B) s e s' :
  (c ≫= k) s = (inl e, s') ->
  c s = (inl e, s') \/ exists a s1, c s = (inr a, s1) /\ k a s1 = (inl e, s').
Proof.
  unfold mbind, M_bind, bind. destruct (c s) as [[e0|a] s1]; intros H.
  - left. now inversion H.
  - right. now exists a, s1.
Qed.

(** The [catch] blocks only throw when reading [message] does. *)
Lemma catch_block_throws (err e : thrown) s s' :
  Part000.catch_block err s = (inl e, s') ->
  exists what, e = TypeError_reading what.
Proof.
  unfold Part000.catch_block. intros H.
  apply bind_throws in H as [H|(a & s1 & _ & H)].
  - now apply get_message_throws in H.
  - discriminate H.
Qed.

Lemma catch_block_ts_throws (err e : thrown) s s' :
  ServerTs.catch_block err s = (inl e, s') ->
  exists what, e = TypeError_reading what.
Proof.
  unfold ServerTs.catch_block. intros H. cbv zeta in H.
  apply bind_throws in H as [H|(a & s1 & _ & H)].
  - now apply get_message_throws in H.
  - discriminate H.
Qed.

(** The [finally] block of part_000 completes normally. *)
Lemma finally_block_returns (h : host) s :
  exists s', Part000.finally_block h s = (inr tt, s').
Proof.
  unfold Part000.finally_block, try_catch.
  destruct (Part000.release h s) as [[e|[]] s1]; eexists; reflexivity.
Qed.

(** Only the [TypeError] of a [catch] block leaves part_000's
    [runQuickJsInSandbox]. *)
Lemma run_throws_TypeError (h : host) (jsCode : jsstring) (m : wasm_module)
    (s : unit * store) (e : thrown) s' :
  Part000.runQuickJsInSandbox h jsCode m s = (inl e, s') ->
  exists what, e = TypeError_reading what.
Proof.
  unfold Part000.runQuickJsInSandbox, call, Part000.runQuickJsInSandbox_body,
    try_finally.
  destruct (try_catch (Part000.try_block h jsCode m) Part000.catch_block
              (Part000.no_locals, s.2)) as [r s1] eqn:Htc.
  destruct (finally_block_returns h s1) as [s2 Hf]. rewrite Hf.
  destruct s2 as [l2 σ2]. intros H. inversion H; subst r.
  unfold try_catch in Htc.
  destruct (Part000.try_block h jsCode m (Part000.no_locals, s.2))
    as [[e0|r0] s0]; [|discriminate Htc].
  now apply catch_block_throws in Htc.
Qed.

(** Only the [TypeError] of the [catch] block leaves server.ts's
    [runQuickJsInSandbox]. *)
Lemma run_ts_throws_TypeError (h : host) (jsCode : jsstring) (m : wasm_module)
    (s : unit * store) (e : thrown) s' :
  ServerTs.runQuickJsInSandbox h jsCode m s = (inl e, s') ->
  exists what, e = TypeError_reading what.
Proof.
  unfold ServerTs.runQuickJsInSandbox, call, try_catch.
  destruct (ServerTs.try_block h jsCode m (ServerTs.no_locals, s.2))
    as [[e0|r0] s0].
  - destruct (ServerTs.catch_block e0 s0) as [r1 [l1 σ1]] eqn:Hc.
    intros H. inversion H; subst r1. now apply catch_block_ts_throws in Hc.
  - destruct s0. discriminate.
Qed.

Lemma handler_returns (h : host) (code : jsstring) (m : wasm_module)
    (σ σ' : store) (r : sandbox_result) :
  Part000.runQuickJsInSandbox (L:=unit) h code m (tt, σ) = (inr r, (tt, σ')) ->
  run_handler (Part000.tool_handler h code m) σ
  = (inr (Part000.respond r), σ').
Proof.
  intros H. unfold run_handler, Part000.tool_handler, try_catch.
  unfold mbind, M_bind, bind. now rewrite H.
Qed.

Lemma handler_ts_returns (h : host) (code : jsstring) (m : wasm_module)
    (σ σ' : store) (r : sandbox_result) :
  ServerTs.runQuickJsInSandbox (L:=unit) h code m (tt, σ) = (inr r, (tt, σ')) ->
  run_handler (ServerTs.tool_handler h code m) σ
  = (inr (ServerTs.respond r), σ').
Proof.
  intros H. unfold run_handler, ServerTs.tool_handler, try_catch.
  unfold mbind, M_bind, bind. now rewrite H.
Qed.

Lemma handler_catches (h : host) (code : jsstring) (m : wasm_module)
    (σ σ' : store) (e : thrown) :
  Part000.runQuickJsInSandbox (L:=unit) h code m (tt, σ) = (inl e, (tt, σ')) ->
  exists msg,
    e = Thrown (Some msg) (js "TypeError: " ++ msg)
    /\ run_handler (Part000.tool_handler h code m) σ
       = (inr (text_response (server_error_text (Some msg)) true), σ').
Proof.
  intros H. destruct (run_throws_TypeError _ _ _ _ _ _ H) as [what ->].
  eexists. split; [reflexivity|].
  unfold run_handler, Part000.tool_handler, try_catch.
  unfold mbind, M_bind, bind. now rewrite H.
Qed.

Lemma handler_ts_catches (h : host) (code : jsstring) (m : wasm_module)
    (σ σ' : store) (e : thrown) :
  ServerTs.runQuickJsInSandbox (L:=unit) h code m (tt, σ) = (inl e, (tt, σ')) ->
  exists msg,
    e = Thrown (Some msg) (js "TypeError: " ++ msg)
    /\ run_handler (ServerTs.tool_handler h code m) σ
       = (inr (text_response (server_error_text (Some msg)) true), σ').
Proof.
  intros H. destruct (run_ts_throws_TypeError _ _ _ _ _ _ H) as [what ->].
  eexists. split; [reflexivity|].
  unfold run_handler, ServerTs.tool_handler, try_catch.
  unfold mbind, M_bind, bind. now rewrite H.
Qed.

(* ===================================================================== *)
(** ** The paths of server.ts's runQuickJsInSandbox *)
(* ===================================================================== *)

(** The [try] block of server.ts returns one result only. *)
Lemma try_block_ts_result (h : host) (code : jsstring) (m : wasm_module)
    (s s' : ServerTs.locals * store) (r : sandbox_result) :
  ServerTs.try_block h code m s = (inr r, s') -> r = mkResult [] [] None.
Proof.
  destruct s as [l σ]. red_run. exec_all h.
  all: intros H; inversion H; reflexivity.
Qed.

(** When the sandbox is set up and exits, server.ts returns empty streams
    and no error; what the script wrote went to the process's own
    descriptors 1 and 2. *)
Lemma try_block_ts_exits (h : host) (code : jsstring) (m : wasm_module)
    (σ : store) (n : Z) :
  succeeds (new_WASI_throws h) = true ->
  succeeds (instantiate_throws h) = true ->
  run_ending (started_run_ts h code m) = Exits n ->
  ServerTs.try_block h code m (ServerTs.no_locals, σ)
  = (inr (mkResult [] [] None),
     (ServerTs.no_locals,
      write_fd 2 (err_written (started_run_ts h code m))
        (write_fd 1 (out_written (started_run_ts h code m)) σ))).
Proof.
  unfold started_run_ts. intros H1 H2 He. host_premises.
  cbv beta iota delta [ServerTs.wasi_config ServerTs.no_locals
                       ServerTs.stdoutFd ServerTs.stderrFd] in He.
  red_run. exec_all h. reflexivity.
Qed.

Lemma run_ts_of_try_block (h : host) (code : jsstring) (m : wasm_module)
    (σ : store) (r : sandbox_result) (s' : ServerTs.locals * store) :
  ServerTs.try_block h code m (ServerTs.no_locals, σ) = (inr r, s') ->
  ServerTs.runQuickJsInSandbox (L:=unit) h code m (tt, σ)
  = (inr r, (tt, s'.2)).
Proof.
  intros H. unfold ServerTs.runQuickJsInSandbox, call, try_catch.
  cbn [snd fst]. rewrite H. now destruct s'.
Qed.

Lemma respond_ts_silent :
  ServerTs.respond (mkResult [] [] None)
  = text_response (js "--- Execution Success (No Output) ---") false.
Proof. vm_compute. reflexivity. Qed.

(** Every result of server.ts's [runQuickJsInSandbox], from the [try] block
    or from the [catch] block, has empty [stdout] and [stderr]. *)
Lemma run_ts_streams_empty (h : host) (code : jsstring) (m : wasm_module)
    (s s' : unit * store) (r : sandbox_result) :
  ServerTs.runQuickJsInSandbox h code m s = (inr r, s') ->
  stdout r = [] /\ stderr r = [].
Proof.
  unfold ServerTs.runQuickJsInSandbox, call, try_catch.
  destruct (ServerTs.try_block h code m (ServerTs.no_locals, s.2))
    as [[e0|r0] [l0 σ0]] eqn:Ht.
  - unfold ServerTs.catch_block. cbv zeta.
    destruct e0; cbn; intros H; inversion H; subst; split; reflexivity.
  - intros H. inversion H; subst r0.
    now rewrite (try_block_ts_result _ _ _ _ _ _ Ht).
Qed.

(** Whenever the [try] block of server.ts returns, the handler answers
    with the marker. *)
Lemma handler_ts_marker (h : host) (code : jsstring) (m : wasm_module)
    (σ : store) (r : sandbox_result) (s' : ServerTs.locals * store) :
  ServerTs.try_block h code m (ServerTs.no_locals, σ) = (inr r, s') ->
  run_handler (ServerTs.tool_handler h code m) σ
  = (inr (text_response (js "--- Execution Success (No Output) ---") false),
     s'.2).
Proof.
  intros H. pose proof (try_block_ts_result _ _ _ _ _ _ H) as ->.
  pose proof (run_ts_of_try_block _ _ _ _ _ _ H) as Hr.
  rewrite (handler_ts_returns _ _ _ _ _ _ Hr). now rewrite respond_ts_silent.
Qed.

(** Whatever the status the script exits with, server.ts answers with the
    marker. *)
Lemma exit_status_dropped_by_server_ts (h : host) (code : jsstring)
    (m : wasm_module) (σ : store) (n : Z) :
  succeeds (new_WASI_throws h) = true ->
  succeeds (instantiate_throws h) = true ->
  run_ending (started_run_ts h code m) = Exits n ->
  exists σ',
    run_handler (ServerTs.tool_handler h code m) σ
    = (inr (text_response (js "--- Execution Success (No Output) ---") false),
       σ').
Proof.
  intros H1 H2 He. eexists.
  exact (handler_ts_marker _ _ _ _ _ _
           (try_block_ts_exits h code m σ n H1 H2 He)).
Qed.

(* ===================================================================== *)
(** ** Exit status 0 with diagnostics on stderr *)
(* ===================================================================== *)

(** part_000 flags diagnostics on a successful exit: for every run whose
    capture channel opens and is read back, where the script exits with
    status 0 and the captured stderr text is not blank, the handler returns
    a response with [isError = true] whose text includes the stderr text. *)
Theorem stderr_on_zero_exit_is_error (h : host) (code : jsstring)
    (m : wasm_module) (σ : store) :
  setup_succeeds h σ = true -> capture_succeeds h = true ->
  run_ending (started_run h code m σ) = Exits 0 ->
  trim (err_written (started_run h code m σ)) <> [] ->
  exists resp σ',
    run_handler (Part000.tool_handler h code m) σ = (inr resp, σ')
    /\ isError resp = true
    /\ includes (content_text resp) (err_written (started_run h code m σ))
       = true.
Proof.
  intros Hs Hc He Ht.
  destruct (run_exits h code m σ 0 Hs Hc He) as [σ' Hr].
  eexists _, σ'. split; [exact (handler_returns _ _ _ _ _ _ Hr)|].
  now apply respond_stderr.
Qed.

Lemma stderr_on_zero_exit_is_error_witness :
  exists resp σ',
    run_handler
      (Part000.tool_handler calm_host (js "std.err.puts('warn')") warns)
      empty_store = (inr resp, σ')
    /\ isError resp = true
    /\ includes (content_text resp) (js "warn" ++ nl) = true.
Proof.
  apply (stderr_on_zero_exit_is_error calm_host (js "std.err.puts('warn')")
           warns empty_store).
  - vm_compute. reflexivity.
  - reflexivity.
  - reflexivity.
  - vm_compute. discriminate.
Defined.

(** C1. server.ts does not flag diagnostics on a successful exit: for a
    script that writes [warn] to its standard error and exits with status 0,
    the handler answers with the no-output marker and [isError = false]; the
    text is not in the response, it went to the process's own stderr. *)
Theorem server_ts_ignores_stderr :
  run_ending (started_run_ts calm_host (js "std.err.puts('warn')") warns)
  = Exits 0
  /\ trim (err_written
             (started_run_ts calm_host (js "std.err.puts('warn')") warns))
     = js "warn"
  /\ run_handler
       (ServerTs.tool_handler calm_host (js "std.err.puts('warn')") warns)
       empty_store
     = (inr (text_response (js "--- Execution Success (No Output) ---") false),
        mkStore ∅ ∅ [(1, []); (2, js "warn" ++ nl)])
  /\ includes (js "--- Execution Success (No Output) ---") (js "warn") = false.
Proof. repeat split; vm_compute; reflexivity. Qed.

(* ===================================================================== *)
(** ** Non-zero exit status *)
(* ===================================================================== *)

Lemma exit_error_nonzero (n : Z) :
  n <> 0%Z -> exit_error n = Some (exit_message n).
Proof.
  intros H. unfold exit_error. destruct (Z.eqb_spec n 0); [contradiction|].
  reflexivity.
Qed.

(** part_000 reports a non-zero exit status: the response is an error and
    its text carries the message naming the status. *)
Lemma nonzero_exit_reported_by_part000 (h : host) (code : jsstring)
    (m : wasm_module) (σ : store) (n : Z) :
  setup_succeeds h σ = true -> capture_succeeds h = true ->
  run_ending (started_run h code m σ) = Exits n -> n <> 0%Z ->
  exists resp σ',
    run_handler (Part000.tool_handler h code m) σ = (inr resp, σ')
    /\ isError resp = true
    /\ includes (content_text resp) (exit_message n) = true.
Proof.
  intros Hs Hc He Hn.
  destruct (run_exits h code m σ n Hs Hc He) as [σ' Hr].
  eexists _, σ'. split; [exact (handler_returns _ _ _ _ _ _ Hr)|].
  apply respond_error; [now apply exit_error_nonzero|reflexivity].
Qed.

(** C2. server.ts drops the exit status: for [throw new Error('boom')],
    which QuickJS ends with status 1, the handler answers with the no-output
    marker and [isError = false]; what the script wrote went to the
    process's own stderr. *)
Theorem server_ts_drops_exit_status :
  run_ending (started_run_ts calm_host (js "throw new Error('boom')")
                throws_boom) = Exits 1
  /\ run_handler
       (ServerTs.tool_handler calm_host (js "throw new Error('boom')")
          throws_boom) empty_store
     = (inr (text_response (js "--- Execution Success (No Output) ---") false),
        mkStore ∅ ∅ [(1, []); (2, js "Error: boom" ++ nl)]).
Proof. split; vm_compute; reflexivity. Qed.

(* ===================================================================== *)
(** ** Exit status 0 with output on stdout only *)
(* ===================================================================== *)

(** C3, as stated, fails: for [console.log('hi')] the text of the response
    is the captured stdout between two delimiter lines, not the captured
    stdout. *)
Lemma hi_is_framed :
  response_of
    (run_handler
       (Part000.tool_handler calm_host (js "console.log('hi')") prints_hi)
       empty_store)
  = Some (text_response
            (js "--- stdout ---" ++ nl ++ (js "hi" ++ nl) ++ nl
             ++ js "--- stdout ---") false)
  /\ js "--- stdout ---" ++ nl ++ (js "hi" ++ nl) ++ nl ++ js "--- stdout ---"
     <> out_written
          (started_run calm_host (js "console.log('hi')") prints_hi
             empty_store).
Proof.
  split; [vm_compute; reflexivity|].
  intros E. vm_compute in E. discriminate E.
Qed.

(** C3, amended. In part_000, for every run whose capture channel opens and
    is read back, where the script exits with status 0, the captured stderr
    is empty and the captured stdout is not, the response has
    [isError = false] and its text is the captured stdout between two
    [--- stdout ---] lines. *)
Theorem stdout_only_is_framed (h : host) (code : jsstring) (m : wasm_module)
    (σ : store) :
  setup_succeeds h σ = true -> capture_succeeds h = true ->
  run_ending (started_run h code m σ) = Exits 0 ->
  err_written (started_run h code m σ) = [] ->
  out_written (started_run h code m σ) <> [] ->
  exists σ',
    run_handler (Part000.tool_handler h code m) σ
    = (inr (text_response
              (js "--- stdout ---" ++ nl
               ++ out_written (started_run h code m σ) ++ nl
               ++ js "--- stdout ---") false), σ').
Proof.
  intros Hs Hc He Herr Hout.
  destruct (run_exits h code m σ 0 Hs Hc He) as [σ' Hr].
  exists σ'. rewrite (handler_returns _ _ _ _ _ _ Hr).
  rewrite Herr. cbn [exit_error Z.eqb].
  now rewrite (respond_stdout_only _ Hout).
Qed.

Lemma stdout_only_is_framed_witness :
  exists σ',
    run_handler
      (Part000.tool_handler calm_host (js "console.log('hi')") prints_hi)
      empty_store
    = (inr (text_response
              (js "--- stdout ---" ++ nl ++ (js "hi" ++ nl) ++ nl
               ++ js "--- stdout ---") false), σ').
Proof.
  apply (stdout_only_is_framed calm_host (js "console.log('hi')") prints_hi
           empty_store).
  - vm_compute. reflexivity.
  - reflexivity.
  - reflexivity.
  - reflexivity.
  - vm_compute. discriminate.
Defined.

(* ===================================================================== *)
(** ** An exception from wasi.start *)
(* ===================================================================== *)

(** When [wasi.start] throws, part_000 answers from the exception alone:
    whatever the script wrote before is not in the result. *)
Lemma fault_response_ignores_output (h : host) (code : jsstring)
    (m : wasm_module) (σ : store) (msg : option jsstring) (txt : jsstring) :
  setup_succeeds h σ = true ->
  run_ending (started_run h code m σ) = Faults (Thrown msg txt) ->
  exists σ',
    run_handler (Part000.tool_handler h code m) σ
    = (inr (Part000.respond
              {| stdout := [];
                 stderr := js "WASI start error: "
                           ++ match msg with Some s => s | None => txt end;
                 error := Some (js "Sandbox execution failed during start: "
                                ++ match msg with Some s => s | None => txt end)
              |}), σ').
Proof.
  intros Hs He. destruct (run_faults h code m σ msg txt Hs He) as [σ' Hr].
  exists σ'. exact (handler_returns _ _ _ _ _ _ Hr).
Qed.

(** C4. part_000 on a script that prints [partial output] and then traps:
    the response is an error built from the exception, its text does not
    include what was printed, and the files that held it are gone. *)
Theorem partial_output_is_dropped :
  started_run calm_host prints_then_traps_code prints_then_traps empty_store
  = mkTrace (js "partial output" ++ nl) []
      (Faults (error_of (js "RuntimeError") (js "unreachable")))
  /\ run_handler
       (Part000.tool_handler calm_host prints_then_traps_code
          prints_then_traps) empty_store
     = (inr (text_response
               (js "--- stderr ---" ++ nl
                ++ js "WASI start error: unreachable" ++ nl
                ++ js "--- stderr ---" ++ nl
                ++ js "--- Execution Error ---" ++ nl
                ++ js "Sandbox execution failed during start: unreachable" ++ nl
                ++ js "--- Execution Error ---") true), empty_store)
  /\ includes
       (js "--- stderr ---" ++ nl
        ++ js "WASI start error: unreachable" ++ nl
        ++ js "--- stderr ---" ++ nl
        ++ js "--- Execution Error ---" ++ nl
        ++ js "Sandbox execution failed during start: unreachable" ++ nl
        ++ js "--- Execution Error ---") (js "partial output") = false.
Proof. repeat split; vm_compute; reflexivity. Qed.

(* ===================================================================== *)
(** ** Release of the capture channel *)
(* ===================================================================== *)

(** C5, as stated, fails: when [rm] throws in the [finally] block the
    exception is dropped and the temporary directory, with its two files,
    is still there when the result is returned. *)
Lemma rm_failure_leaves_tempDir :
  ~ released empty_store
      (store_after rm_fails_host (js "console.log('hi')") prints_hi
         empty_store)
  /\ tmp_dirs
       (store_after rm_fails_host (js "console.log('hi')") prints_hi
          empty_store) !! js "/tmp/quickjs-wasi-a1B2c3"
     = Some (<[js "stderr.log" := []]>
               (<[js "stdout.log" := js "hi" ++ nl]> ∅)).
Proof.
  assert (Hl : tmp_dirs
       (store_after rm_fails_host (js "console.log('hi')") prints_hi
          empty_store) !! js "/tmp/quickjs-wasi-a1B2c3"
     = Some (<[js "stderr.log" := []]>
               (<[js "stdout.log" := js "hi" ++ nl]> ∅))).
  { vm_compute. reflexivity. }
  split; [|exact Hl].
  intros [Ht _]. rewrite Ht in Hl. vm_compute in Hl. discriminate Hl.
Qed.

Lemma delete_pair_again (fds : gmap N (jsstring * jsstring)) (a b : N) :
  delete b (delete a (delete b (delete a fds))) = delete b (delete a fds).
Proof.
  apply map_eq. intros i.
  destruct (decide (a = i)), (decide (b = i)); simplify_map_eq; done.
Qed.

(** Running the release block again, on the store and locals it left,
    changes nothing more: closing a closed handle and removing a removed
    directory leave the store as it is. *)
Lemma release_idempotent (h : host) (s : Part000.locals * store) :
  Part000.release h (Part000.release h s).2 = Part000.release h s.
Proof.
  destruct s as [[td oh eh] [tmp fds inh]].
  destruct td as [d|]; [destruct (truthy d) eqn:Hd|];
    destruct oh as [fo|]; destruct eh as [fe|];
    red_run; exec_all h; rewrite ?Hd; cbv beta iota zeta; exec_all h;
    rewrite ?delete_pair_again, ?delete_delete_eq; reflexivity.
Qed.

(** C5, amended. In part_000, on every exit path of [runQuickJsInSandbox]
    (whatever the host calls and the script do), the [finally] block runs
    before the result is returned and, when its own [close] and [rm] calls go
    through, no temporary directory, file or descriptor of the call is left;
    running the release again changes nothing. *)
Theorem release_when_cleanup_succeeds (h : host) (code : jsstring)
    (m : wasm_module) (σ : store) :
  cleanup_succeeds h = true ->
  released σ (store_after h code m σ)
  /\ forall s, Part000.release h (Part000.release h s).2
               = Part000.release h s.
Proof.
  intros Hc. split; [now apply run_releases|].
  intros s. apply release_idempotent.
Qed.

Lemma release_when_cleanup_succeeds_witness :
  released empty_store
    (store_after calm_host (js "console.log('hi')") prints_hi empty_store).
Proof.
  apply (release_when_cleanup_succeeds calm_host (js "console.log('hi')")
           prints_hi empty_store).
  reflexivity.
Defined.

(* ===================================================================== *)
(** ** server.ts: nothing is captured *)
(* ===================================================================== *)

(** C9. In server.ts, the descriptors given to [new WASI] are [undefined],
    and whenever the [try] block of [runQuickJsInSandbox] returns, whatever
    the script wrote, the result has empty [stdout] and [stderr] and no
    error, and the handler answers with the no-output marker and
    [isError = false]. *)
Theorem server_ts_captures_nothing (h : host) (code : jsstring)
    (m : wasm_module) (σ : store) (r : sandbox_result)
    (s' : ServerTs.locals * store) :
  ServerTs.try_block h code m (ServerTs.no_locals, σ) = (inr r, s') ->
  w_stdout (ServerTs.wasi_config h code ServerTs.no_locals) = None
  /\ w_stderr (ServerTs.wasi_config h code ServerTs.no_locals) = None
  /\ r = mkResult [] [] None
  /\ ServerTs.runQuickJsInSandbox (L:=unit) h code m (tt, σ)
     = (inr (mkResult [] [] None), (tt, s'.2))
  /\ run_handler (ServerTs.tool_handler h code m) σ
     = (inr (text_response (js "--- Execution Success (No Output) ---") false),
        s'.2).
Proof.
  intros H. pose proof (try_block_ts_result _ _ _ _ _ _ H) as ->.
  pose proof (run_ts_of_try_block _ _ _ _ _ _ H) as Hr.
  repeat split; try reflexivity; [exact Hr|].
  exact (handler_ts_marker _ _ _ _ _ _ H).
Qed.

Lemma server_ts_captures_nothing_witness :
  out_written (started_run_ts calm_host (js "console.log('hi')") prints_hi)
  = js "hi" ++ nl
  /\ run_handler
       (ServerTs.tool_handler calm_host (js "console.log('hi')") prints_hi)
       empty_store
     = (inr (text_response (js "--- Execution Success (No Output) ---") false),
        mkStore ∅ ∅ [(1, js "hi" ++ nl); (2, [])]).
Proof.
  split; [reflexivity|].
  apply (server_ts_captures_nothing calm_host (js "console.log('hi')")
           prints_hi empty_store (mkResult [] [] None)
           (ServerTs.no_locals, mkStore ∅ ∅ [(1, js "hi" ++ nl); (2, [])])).
  vm_compute. reflexivity.
Defined.

(* ===================================================================== *)
(** ** No output at all *)
(* ===================================================================== *)

(** C6. For every run that is set up and read back, where the script exits
    with status 0 and writes nothing to either stream, the handler answers
    with the fixed no-output marker and [isError = false]: the marker of
    part_000 in part_000, the marker of server.ts in server.ts. *)
Theorem silent_run_gets_marker (h : host) (code : jsstring) (m : wasm_module)
    (σ : store) :
  setup_succeeds h σ = true -> capture_succeeds h = true ->
  started_run h code m σ = mkTrace [] [] (Exits 0) ->
  started_run_ts h code m = mkTrace [] [] (Exits 0) ->
  (exists σ',
     run_handler (Part000.tool_handler h code m) σ
     = (inr (text_response
               (js "--- Execution Success (No Output, Exit Code 0) ---")
               false), σ'))
  /\ (exists σ',
        run_handler (ServerTs.tool_handler h code m) σ
        = (inr (text_response (js "--- Execution Success (No Output) ---")
                  false), σ')).
Proof.
  intros Hs Hc Hp Ht. split.
  - assert (He : run_ending (started_run h code m σ) = Exits 0)
      by now rewrite Hp.
    destruct (run_exits h code m σ 0 Hs Hc He) as [σ' Hr].
    exists σ'. rewrite (handler_returns _ _ _ _ _ _ Hr), Hp.
    cbn [out_written err_written exit_error Z.eqb].
    now rewrite respond_silent.
  - unfold setup_succeeds in Hs.
    destruct (mkdtemp_result h); [discriminate|].
    repeat (apply andb_true_iff in Hs as [Hs ?]).
    assert (He : run_ending (started_run_ts h code m) = Exits 0)
      by now rewrite Ht.
    pose proof (try_block_ts_exits h code m σ 0 ltac:(assumption)
                  ltac:(assumption) He) as Htb.
    eexists. exact (handler_ts_marker _ _ _ _ _ _ Htb).
Qed.

Lemma silent_run_gets_marker_witness :
  (exists σ',
     run_handler (Part000.tool_handler calm_host (js "1 + 1") silent)
       empty_store
     = (inr (text_response
               (js "--- Execution Success (No Output, Exit Code 0) ---")
               false), σ'))
  /\ (exists σ',
        run_handler (ServerTs.tool_handler calm_host (js "1 + 1") silent)
          empty_store
        = (inr (text_response (js "--- Execution Success (No Output) ---")
                  false), σ')).
Proof.
  apply (silent_run_gets_marker calm_host (js "1 + 1") silent empty_store).
  - vm_compute. reflexivity.
  - reflexivity.
  - reflexivity.
  - reflexivity.
Defined.

(* ===================================================================== *)
(** ** The handler's own catch *)
(* ===================================================================== *)

(** C7. In both files the handler returns a response whatever the host and
    the script do, so nothing is thrown to the transport; and when
    [runQuickJsInSandbox] throws, the response has [isError = true] and the
    text [Server error during tool execution: ] followed by the message of
    what was thrown. *)
Theorem handler_never_throws (h : host) (code : jsstring) (m : wasm_module)
    (σ : store) :
  (exists resp σ',
     run_handler (Part000.tool_handler h code m) σ = (inr resp, σ')
     /\ forall e s',
          Part000.runQuickJsInSandbox (L:=unit) h code m (tt, σ) = (inl e, s')
          -> isError resp = true
             /\ exists msg,
                  e = Thrown (Some msg) (js "TypeError: " ++ msg)
                  /\ content_text resp
                     = js "Server error during tool execution: " ++ msg)
  /\ (exists resp σ',
        run_handler (ServerTs.tool_handler h code m) σ = (inr resp, σ')
        /\ forall e s',
             ServerTs.runQuickJsInSandbox (L:=unit) h code m (tt, σ)
             = (inl e, s')
             -> isError resp = true
                /\ exists msg,
                     e = Thrown (Some msg) (js "TypeError: " ++ msg)
                     /\ content_text resp
                        = js "Server error during tool execution: " ++ msg).
Proof.
  split.
  - destruct (Part000.runQuickJsInSandbox (L:=unit) h code m (tt, σ))
      as [[e|r] [[] σ']] eqn:Hr.
    + destruct (handler_catches _ _ _ _ _ _ Hr) as (msg & -> & Hh).
      rewrite Hh. eexists _, σ'.
      split; [reflexivity|]. intros e' s' He. inversion He; subst e' s'.
      split; [reflexivity|]. exists msg. split; [reflexivity|].
      now rewrite content_text_single.
    + rewrite (handler_returns _ _ _ _ _ _ Hr). eexists _, σ'.
      split; [reflexivity|]. intros e' s' He. discriminate He.
  - destruct (ServerTs.runQuickJsInSandbox (L:=unit) h code m (tt, σ))
      as [[e|r] [[] σ']] eqn:Hr.
    + destruct (handler_ts_catches _ _ _ _ _ _ Hr) as (msg & -> & Hh).
      rewrite Hh. eexists _, σ'.
      split; [reflexivity|]. intros e' s' He. inversion He; subst e' s'.
      split; [reflexivity|]. exists msg. split; [reflexivity|].
      now rewrite content_text_single.
    + rewrite (handler_ts_returns _ _ _ _ _ _ Hr). eexists _, σ'.
      split; [reflexivity|]. intros e' s' He. discriminate He.
Qed.

(** When [mkdtemp] rejects with [undefined], reading [err.message] in the
    [catch] block throws, the exception leaves [runQuickJsInSandbox], and
    the handler turns it into an error response. *)
Lemma handler_never_throws_witness :
  Part000.runQuickJsInSandbox (L:=unit) undefined_host (js "1 + 1") silent
    (tt, empty_store)
  = (inl (TypeError_reading (js "undefined")), (tt, empty_store))
  /\ exists resp σ',
       run_handler (Part000.tool_handler undefined_host (js "1 + 1") silent)
         empty_store = (inr resp, σ')
       /\ isError resp = true.
Proof.
  assert (Hr : Part000.runQuickJsInSandbox (L:=unit) undefined_host
                 (js "1 + 1") silent (tt, empty_store)
               = (inl (TypeError_reading (js "undefined")),
                  (tt, empty_store)))
    by (vm_compute; reflexivity).
  split; [exact Hr|].
  destruct (proj1 (handler_never_throws undefined_host (js "1 + 1") silent
                     empty_store)) as (resp & σ' & Hh & Hc).
  exists resp, σ'. split; [exact Hh|]. exact (proj1 (Hc _ _ Hr)).
Defined.

(* ===================================================================== *)
(** ** Start-up *)
(* ===================================================================== *)

(** C8. In both files, when reading or compiling the binary fails, start-up
    ends the process with exit code 1, which is not 0, and no request ever
    reaches a handler; and a process that serves has read and compiled the
    binary, and its handler runs that module. *)
Theorem load_failure_ends_process (b : boot) :
  (load_fails b = true ->
   main Part000.startServer b = Exited 1
   /\ main ServerTs.startServer b = Exited 1
   /\ 1%Z <> 0%Z
   /\ forall h code σ,
        accept (main Part000.startServer b) h code σ = None
        /\ accept (main ServerTs.startServer b) h code σ = None)
  /\ (forall srv,
        main Part000.startServer b = Serving srv ->
        exists wasmBuffer compiledWasmModule,
          readFile_wasm b = inr wasmBuffer
          /\ WebAssembly_compile b wasmBuffer = inr compiledWasmModule
          /\ srv = mkServer compiledWasmModule TOOL_NAME
                     (fun h javascript_code =>
                        Part000.tool_handler h javascript_code
                          compiledWasmModule))
  /\ (forall srv,
        main ServerTs.startServer b = Serving srv ->
        exists wasmBuffer compiledWasmModule,
          readFile_wasm b = inr wasmBuffer
          /\ WebAssembly_compile b wasmBuffer = inr compiledWasmModule
          /\ srv = mkServer compiledWasmModule TOOL_NAME
                     (fun h javascript_code =>
                        ServerTs.tool_handler h javascript_code
                          compiledWasmModule)).
Proof.
  unfold load_fails, main, Part000.startServer, ServerTs.startServer,
    Part000.loadAndCompileWasm, ServerTs.loadAndCompileWasm, connect,
    object_truthy.
  destruct (readFile_wasm b) as [e|buf] eqn:Hread.
  - split; [|split].
    + intros _. cbn. repeat split; discriminate.
    + intros srv H; discriminate H.
    + intros srv H; discriminate H.
  - destruct (WebAssembly_compile b buf) as [e|compiled] eqn:Hcomp.
    + split; [|split].
      * intros _. cbn. repeat split; discriminate.
      * intros srv H; discriminate H.
      * intros srv H; discriminate H.
    + split; [discriminate|].
      cbn. destruct (connect_throws b); split; intros srv H;
        try discriminate H; inversion H; subst srv; exists buf, compiled;
        repeat split; assumption.
Qed.

Lemma load_failure_ends_process_witness :
  main Part000.startServer missing_binary = Exited 1
  /\ main ServerTs.startServer missing_binary = Exited 1
  /\ 1%Z <> 0%Z
  /\ forall h code σ,
       accept (main Part000.startServer missing_binary) h code σ = None
       /\ accept (main ServerTs.startServer missing_binary) h code σ = None.
Proof.
  apply (proj1 (load_failure_ends_process missing_binary)).
  reflexivity.
Defined.

(* ===================================================================== *)
(** ** The environment of the sandbox *)
(* ===================================================================== *)

(** C10. In both files the [env] given to [new WASI] is the environment of
    the host process as it is; and what a script does depends on it: for a
    script that prints its environment, two hosts that differ only in the
    value of one variable get different responses from part_000, and
    different text on the process's stdout from server.ts. *)
Theorem sandbox_sees_host_environment :
  (forall h code fd1 fd2,
     w_env (Part000.wasi_config h code fd1 fd2) = process_env h)
  /\ (forall h code l, w_env (ServerTs.wasi_config h code l) = process_env h)
  /\ response_of
       (run_handler
          (Part000.tool_handler (with_env [(js "TOKEN", js "a")] calm_host)
             (js "print(std.getenv('TOKEN'))") prints_env) empty_store)
     <> response_of
          (run_handler
             (Part000.tool_handler (with_env [(js "TOKEN", js "b")] calm_host)
                (js "print(std.getenv('TOKEN'))") prints_env) empty_store)
  /\ inherited
       (run_handler
          (ServerTs.tool_handler (with_env [(js "TOKEN", js "a")] calm_host)
             (js "print(std.getenv('TOKEN'))") prints_env) empty_store).2
     <> inherited
          (run_handler
             (ServerTs.tool_handler (with_env [(js "TOKEN", js "b")] calm_host)
                (js "print(std.getenv('TOKEN'))") prints_env) empty_store).2.
Proof.
  split; [reflexivity|]. split; [reflexivity|].
  split; intros E; vm_compute in E; discriminate E.
Qed.

(* ===================================================================== *)
(** ** The result of part_000's runQuickJsInSandbox, path by path *)
(* ===================================================================== *)

Lemma run_result_paths (h : host) (jsCode : jsstring) (m : wasm_module)
    (σ : store) :
  run_result h jsCode m σ = path_result h jsCode m σ.
Proof.
  unfold run_result, path_result, setup_error, capture_error, started_run,
    tempDir_name, caught.
  destruct σ as [tmp fds inh].
  cbv beta iota delta
    [stdout_fd stderr_fd Part000.wasi_config tmp_dirs open_fds first_thrown
     exit_error].
  red_run. exec_all h; reflexivity.
Qed.

Lemma run_result_ts_paths (h : host) (jsCode : jsstring) (m : wasm_module)
    (σ : store) :
  run_result_ts h jsCode m σ = path_result_ts h jsCode m.
Proof.
  unfold run_result_ts, path_result_ts, started_run_ts, caught_ts.
  cbv beta iota delta
    [ServerTs.wasi_config ServerTs.no_locals ServerTs.stdoutFd
     ServerTs.stderrFd first_thrown].
  red_run. exec_all h; reflexivity.
Qed.

Lemma store_after_ts_paths (h : host) (jsCode : jsstring) (m : wasm_module)
    (σ : store) :
  store_after_ts h jsCode m σ
  = match first_thrown [new_WASI_throws h; instantiate_throws h] with
    | Some _ => σ
    | None =>
        write_fd 2 (err_written (started_run_ts h jsCode m))
          (write_fd 1 (out_written (started_run_ts h jsCode m)) σ)
    end.
Proof.
  unfold store_after_ts, started_run_ts.
  cbv beta iota delta
    [ServerTs.wasi_config ServerTs.no_locals ServerTs.stdoutFd
     ServerTs.stderrFd first_thrown].
  red_run. exec_all h; reflexivity.
Qed.

Lemma setup_succeeds_no_error (h : host) (σ : store) :
  setup_succeeds h σ = true <-> setup_error h σ = None.
Proof.
  unfold setup_succeeds, setup_error.
  destruct (mkdtemp_result h) as [e|suffix]; [split; discriminate|].
  destruct (tmp_dirs σ !! tempDir_name h suffix) eqn:Hl.
  - rewrite bool_decide_eq_false_2 by discriminate. split; discriminate.
  - rewrite bool_decide_eq_true_2 by reflexivity. cbn.
    destruct (open_stdout_throws h), (open_stderr_throws h),
      (new_WASI_throws h), (instantiate_throws h); cbn;
      split; (reflexivity || discriminate).
Qed.

Lemma capture_succeeds_no_error (h : host) :
  capture_succeeds h = true <-> capture_error h = None.
Proof.
  unfold capture_succeeds, capture_error.
  destruct (close_stdout_throws h), (close_stderr_throws h),
    (readFile_stdout_throws h), (readFile_stderr_throws h); cbn;
    split; (reflexivity || discriminate).
Qed.

Ltac frame_dir :=
  let d := fresh "d" in let files := fresh "files" in let Hd := fresh "Hd" in
  intros d files Hd;
  first
    [ exact Hd
    | match goal with
      | H : _ !! ?k = None |- _ =>
          assert (k <> d) by (intros <-; congruence)
      end;
      rewrite ?lookup_delete_ne, ?lookup_alter_ne, ?lookup_insert_ne
        by assumption;
      exact Hd ].

Ltac frame_fd :=
  let fd := fresh "fd" in let p := fresh "p" in let Hp := fresh "Hp" in
  intros fd p Hp;
  first
    [ exact Hp
    | match type of Hp with
      | ?fds !! _ = _ =>
          assert (fresh (dom fds) <> fd)
            by (intros <-; rewrite fresh_fd_unused in Hp; discriminate);
          assert (fresh ({[fresh (dom fds)]} ∪ dom fds) <> fd)
            by (intros <-; rewrite second_fd_unused in Hp; discriminate)
      end;
      rewrite ?lookup_delete_ne, ?lookup_insert_ne by assumption;
      exact Hp ].

(** What was there before a run of part_000 is there after it, and the
    process's own streams get nothing. *)
Lemma run_frame (h : host) (jsCode : jsstring) (m : wasm_module) (σ : store) :
  inherited (store_after h jsCode m σ) = inherited σ
  /\ (forall d files,
        tmp_dirs σ !! d = Some files ->
        tmp_dirs (store_after h jsCode m σ) !! d = Some files)
  /\ (forall fd p,
        open_fds σ !! fd = Some p ->
        open_fds (store_after h jsCode m σ) !! fd = Some p).
Proof.
  unfold store_after. destruct σ as [tmp fds inh].
  red_run. exec_all h.
  all: cbn [snd tmp_dirs open_fds inherited].
  all: split; [reflexivity|split]; [frame_dir|frame_fd].
Qed.

Lemma run_result_inr (h : host) (code : jsstring) (m : wasm_module)
    (σ : store) (r : sandbox_result) :
  run_result h code m σ = inr r ->
  run_handler (Part000.tool_handler h code m) σ
  = (inr (Part000.respond r), store_after h code m σ).
Proof.
  unfold run_result, store_after.
  destruct (Part000.runQuickJsInSandbox (L:=unit) h code m (tt, σ))
    as [[e|r'] [[] σ']] eqn:Hr; cbn; intros H; inversion H; subst.
  exact (handler_returns _ _ _ _ _ _ Hr).
Qed.

Lemma run_result_ts_inr (h : host) (code : jsstring) (m : wasm_module)
    (σ : store) (r : sandbox_result) :
  run_result_ts h code m σ = inr r ->
  run_handler (ServerTs.tool_handler h code m) σ
  = (inr (ServerTs.respond r), store_after_ts h code m σ).
Proof.
  unfold run_result_ts, store_after_ts.
  destruct (ServerTs.runQuickJsInSandbox (L:=unit) h code m (tt, σ))
    as [[e|r'] [[] σ']] eqn:Hr; cbn; intros H; inversion H; subst.
  exact (handler_ts_returns _ _ _ _ _ _ Hr).
Qed.

Lemma run_result_inl (h : host) (code : jsstring) (m : wasm_module)
    (σ : store) (e : thrown) :
  run_result h code m σ = inl e ->
  exists msg,
    run_handler (Part000.tool_handler h code m) σ
    = (inr (text_response (server_error_text (Some msg)) true),
       store_after h code m σ).
Proof.
  unfold run_result, store_after.
  destruct (Part000.runQuickJsInSandbox (L:=unit) h code m (tt, σ))
    as [[e'|r'] [[] σ']] eqn:Hr; cbn; intros H; inversion H; subst.
  destruct (handler_catches _ _ _ _ _ _ Hr) as (msg & _ & Hh).
  now exists msg.
Qed.

Lemma run_result_ts_inl (h : host) (code : jsstring) (m : wasm_module)
    (σ : store) (e : thrown) :
  run_result_ts h code m σ = inl e ->
  exists msg,
    run_handler (ServerTs.tool_handler h code m) σ
    = (inr (text_response (server_error_text (Some msg)) true),
       store_after_ts h code m σ).
Proof.
  unfold run_result_ts, store_after_ts.
  destruct (ServerTs.runQuickJsInSandbox (L:=unit) h code m (tt, σ))
    as [[e'|r'] [[] σ']] eqn:Hr; cbn; intros H; inversion H; subst.
  destruct (handler_ts_catches _ _ _ _ _ _ Hr) as (msg & _ & Hh).
  now exists msg.
Qed.

Lemma caught_error_truthy (msg : option jsstring) :
  truthy (js "Sandbox setup or execution failed: " ++ template msg) = true.
Proof. reflexivity. Qed.

(* ===================================================================== *)
(** ** part_000: what each path of a run gives the caller *)
(* ===================================================================== *)

(** X1. Capture round trip in part_000: when the run is set up, the script
    exits and the capture is read back, the result's [stdout] and [stderr]
    are exactly what the script wrote to its standard output and standard
    error (not swapped, nothing from other files), whatever directories and
    descriptors were live before; [error] names the status when it is not
    0. *)
Theorem capture_round_trip (h : host) (code : jsstring) (m : wasm_module)
    (σ : store) (n : Z) :
  setup_succeeds h σ = true -> capture_succeeds h = true ->
  run_ending (started_run h code m σ) = Exits n ->
  run_result h code m σ
  = inr {| stdout := out_written (started_run h code m σ);
           stderr := err_written (started_run h code m σ);
           error := if (n =? 0)%Z then None else Some (exit_message n) |}.
Proof.
  intros Hs Hc He. rewrite run_result_paths. unfold path_result.
  apply setup_succeeds_no_error in Hs. apply capture_succeeds_no_error in Hc.
  now rewrite Hs, He, Hc.
Qed.

Lemma capture_round_trip_witness :
  run_result calm_host (js "console.log('ok'); std.err.puts('\n')")
    blank_warning busy_store
  = inr {| stdout := js "ok" ++ nl; stderr := nl; error := None |}.
Proof.
  apply (capture_round_trip calm_host
           (js "console.log('ok'); std.err.puts('\n')") blank_warning
           busy_store 0).
  - vm_compute. reflexivity.
  - reflexivity.
  - reflexivity.
Defined.

(** X2. In part_000 a result without [error] is a clean run: if
    [runQuickJsInSandbox] resolves to a result whose [error] is [undefined],
    then the set-up and the read-back went through, the script exited with
    status 0, and the two streams are what the script wrote. *)
Theorem no_error_means_clean_exit (h : host) (code : jsstring)
    (m : wasm_module) (σ : store) (r : sandbox_result) :
  run_result h code m σ = inr r -> error r = None ->
  setup_succeeds h σ = true /\ capture_succeeds h = true
  /\ run_ending (started_run h code m σ) = Exits 0
  /\ stdout r = out_written (started_run h code m σ)
  /\ stderr r = err_written (started_run h code m σ).
Proof.
  rewrite run_result_paths. unfold path_result, caught.
  rewrite setup_succeeds_no_error, capture_succeeds_no_error.
  destruct (setup_error h σ) as [[msg txt|what]|]; cbv beta iota;
    [intros [= <-] H; cbn in H; discriminate H|intros H; discriminate H|].
  destruct (run_ending (started_run h code m σ)) as [n|[msg txt|what]];
    cbv beta iota;
    [|intros [= <-] H; cbn in H; discriminate H
     |unfold TypeError_reading, error_of; cbv beta iota;
      intros [= <-] H; cbn in H; discriminate H].
  destruct (capture_error h) as [[msg txt|what]|]; cbv beta iota;
    [intros [= <-] H; cbn in H; discriminate H|intros H; discriminate H|].
  intros [= <-]. cbn [error stdout stderr]. unfold exit_error.
  destruct (Z.eqb_spec n 0) as [->|]; [|discriminate].
  intros _. repeat split; reflexivity.
Qed.

Lemma no_error_means_clean_exit_witness :
  setup_succeeds calm_host empty_store = true
  /\ capture_succeeds calm_host = true
  /\ run_ending (started_run calm_host (js "console.log('hi')") prints_hi
                   empty_store) = Exits 0
  /\ js "hi" ++ nl
     = out_written (started_run calm_host (js "console.log('hi')") prints_hi
                      empty_store)
  /\ [] = err_written (started_run calm_host (js "console.log('hi')")
                         prints_hi empty_store).
Proof.
  apply (no_error_means_clean_exit calm_host (js "console.log('hi')")
           prints_hi empty_store (mkResult (js "hi" ++ nl) [] None)).
  - vm_compute. reflexivity.
  - reflexivity.
Defined.

(** X3. Set-up failure in part_000: when [mkdtemp], an [open], [new WASI] or
    [WebAssembly.instantiate] throws a value other than [null] or
    [undefined], [runQuickJsInSandbox] resolves, for every module (the
    sandbox is never started), to empty streams and the error
    [Sandbox setup or execution failed: ] followed by the exception's
    message; the handler answers with [isError = true] and a text that
    includes that error. *)
Theorem setup_failure_is_reported (h : host) (code : jsstring)
    (m : wasm_module) (σ : store) (msg : option jsstring) (txt : jsstring) :
  setup_error h σ = Some (Thrown msg txt) ->
  run_result h code m σ
  = inr {| stdout := []; stderr := [];
           error := Some (js "Sandbox setup or execution failed: "
                          ++ template msg) |}
  /\ exists resp σ',
       run_handler (Part000.tool_handler h code m) σ = (inr resp, σ')
       /\ isError resp = true
       /\ includes (content_text resp)
            (js "Sandbox setup or execution failed: " ++ template msg) = true.
Proof.
  intros Hs.
  assert (Hr : run_result h code m σ
               = inr {| stdout := []; stderr := [];
                        error := Some (js "Sandbox setup or execution failed: "
                                       ++ template msg) |}).
  { rewrite run_result_paths. unfold path_result. now rewrite Hs. }
  split; [exact Hr|].
  eexists _, _. split; [exact (run_result_inr _ _ _ _ _ Hr)|].
  apply respond_error; reflexivity.
Qed.

Lemma setup_failure_is_reported_witness :
  run_result open_fails_host (js "console.log('hi')") prints_hi empty_store
  = inr {| stdout := []; stderr := [];
           error := Some (js "Sandbox setup or execution failed: "
                          ++ js "EMFILE: too many open files") |}.
Proof.
  apply (setup_failure_is_reported open_fails_host (js "console.log('hi')")
           prints_hi empty_store (Some (js "EMFILE: too many open files"))
           (js "Error: EMFILE: too many open files")).
  vm_compute. reflexivity.
Defined.

(** X4. Read-back failure in part_000: when the script has exited, with
    whatever status and output, and closing a handle or reading a file back
    throws a value other than [null] or [undefined], the result has empty
    streams and the error [Sandbox setup or execution failed: ] followed by
    the exception's message: neither the output nor the exit status reaches
    the caller. *)
Theorem readback_failure_loses_output (h : host) (code : jsstring)
    (m : wasm_module) (σ : store) (n : Z) (msg : option jsstring)
    (txt : jsstring) :
  setup_succeeds h σ = true ->
  run_ending (started_run h code m σ) = Exits n ->
  capture_error h = Some (Thrown msg txt) ->
  run_result h code m σ
  = inr {| stdout := []; stderr := [];
           error := Some (js "Sandbox setup or execution failed: "
                          ++ template msg) |}.
Proof.
  intros Hs He Hc. rewrite run_result_paths. unfold path_result.
  apply setup_succeeds_no_error in Hs. now rewrite Hs, He, Hc.
Qed.

Lemma readback_failure_loses_output_witness :
  run_result read_fails_host (js "throw new Error('boom')") throws_boom
    empty_store
  = inr {| stdout := []; stderr := [];
           error := Some (js "Sandbox setup or execution failed: "
                          ++ js "EIO: i/o error") |}.
Proof.
  apply (readback_failure_loses_output read_fails_host
           (js "throw new Error('boom')") throws_boom empty_store 1
           (Some (js "EIO: i/o error")) (js "Error: EIO: i/o error")).
  - vm_compute. reflexivity.
  - reflexivity.
  - reflexivity.
Defined.

(** X5. An exception of [wasi.start] in part_000, other than [null] or
    [undefined]: the handler answers with [isError = true] and a text that
    includes [Sandbox execution failed during start: ] followed by the
    exception's message, or by its string conversion when it has no
    message. *)
Theorem start_exception_is_reported (h : host) (code : jsstring)
    (m : wasm_module) (σ : store) (msg : option jsstring) (txt : jsstring) :
  setup_succeeds h σ = true ->
  run_ending (started_run h code m σ) = Faults (Thrown msg txt) ->
  exists resp σ',
    run_handler (Part000.tool_handler h code m) σ = (inr resp, σ')
    /\ isError resp = true
    /\ includes (content_text resp)
         (js "Sandbox execution failed during start: "
          ++ match msg with Some s => s | None => txt end) = true.
Proof.
  intros Hs He. destruct (run_faults h code m σ msg txt Hs He) as [σ' Hr].
  eexists _, σ'. split; [exact (handler_returns _ _ _ _ _ _ Hr)|].
  apply respond_error; reflexivity.
Qed.

Lemma start_exception_is_reported_witness :
  exists resp σ',
    run_handler
      (Part000.tool_handler calm_host prints_then_traps_code
         prints_then_traps) empty_store = (inr resp, σ')
    /\ isError resp = true
    /\ includes (content_text resp)
         (js "Sandbox execution failed during start: " ++ js "unreachable")
       = true.
Proof.
  apply (start_exception_is_reported calm_host prints_then_traps_code
           prints_then_traps empty_store (Some (js "unreachable"))
           (js "RuntimeError: unreachable")).
  - vm_compute. reflexivity.
  - reflexivity.
Defined.

(** X6. When [wasi.start] throws [null] or [undefined] in part_000, reading
    [wasiError.message] in the inner [catch] throws a [TypeError], which the
    outer [catch] reports: the result has empty streams and the error
    [Sandbox setup or execution failed: Cannot read properties of ...]. *)
Theorem nullish_start_exception (h : host) (code : jsstring)
    (m : wasm_module) (σ : store) (what : jsstring) :
  setup_succeeds h σ = true ->
  run_ending (started_run h code m σ) = Faults (ThrownNullish what) ->
  run_result h code m σ
  = inr {| stdout := []; stderr := [];
           error := Some (js "Sandbox setup or execution failed: "
                          ++ js "Cannot read properties of " ++ what
                          ++ js " (reading 'message')") |}.
Proof.
  intros Hs He. rewrite run_result_paths. unfold path_result.
  apply setup_succeeds_no_error in Hs. now rewrite Hs, He.
Qed.

Lemma nullish_start_exception_witness :
  run_result calm_host (js "console.log('partial output')") throws_undefined
    empty_store
  = inr {| stdout := []; stderr := [];
           error := Some (js "Sandbox setup or execution failed: "
                          ++ js "Cannot read properties of " ++ js "undefined"
                          ++ js " (reading 'message')") |}.
Proof.
  apply (nullish_start_exception calm_host
           (js "console.log('partial output')") throws_undefined empty_store
           (js "undefined")).
  - vm_compute. reflexivity.
  - reflexivity.
Defined.

(** X7. In part_000 the [finally] block never changes what the caller gets:
    whatever its [close] and [rm] calls do, [runQuickJsInSandbox] resolves to
    the same result, or throws the same exception. *)
Theorem cleanup_never_changes_result (h : host) (code : jsstring)
    (m : wasm_module) (σ : store) (k1 k2 k3 : option thrown) :
  run_result (with_cleanup k1 k2 k3 h) code m σ = run_result h code m σ.
Proof.
  rewrite !run_result_paths. destruct h. reflexivity.
Qed.

(* ===================================================================== *)
(** ** part_000: how the handler classifies and formats *)
(* ===================================================================== *)

Lemma trimStart_keeps_last (l : jsstring) (c : N) :
  isWhiteSpace c = false -> trimStart (l ++ [c]) <> [].
Proof.
  intros Hc. induction l as [|a l IH]; simpl.
  - now rewrite Hc.
  - destruct (isWhiteSpace a); [exact IH|discriminate].
Qed.

(** Trimming a text that starts with a solid code unit leaves something. *)
Lemma trim_nonempty (s : jsstring) : starts_solid s = true -> trim s <> [].
Proof.
  intros H. unfold trim. rewrite (trimStart_solid _ H). unfold trimEnd.
  destruct s as [|c s]; [discriminate|]. simpl in H.
  apply negb_true_iff in H. simpl rev.
  pose proof (trimStart_keeps_last (rev s) c H) as Hne.
  destruct (trimStart (rev s ++ [c])); [now elim Hne|].
  simpl. intros E. apply app_eq_nil in E as [_ E]. discriminate E.
Qed.

Lemma respond_isError_false (r : sandbox_result) :
  isError (Part000.respond r) = false ->
  truthy_opt (error r) = false /\ trim (stderr r) = [].
Proof.
  destruct r as [out err e]. rewrite respond_unfold.
  cbn [isError text_response error stderr]. unfold js_or, js_and.
  cbn [ToBoolean]. destruct (truthy_opt e); [discriminate|].
  destruct err as [|c s]; [intros _; split; reflexivity|].
  cbn [truthy ToBoolean]. intros H. split; [reflexivity|].
  destruct (trim (c :: s)) as [|x t]; [reflexivity|].
  unfold str_length in H. simpl length in H.
  apply N.ltb_ge in H. lia.
Qed.

Lemma respond_includes_stdout (r : sandbox_result) :
  truthy (stdout r) = true ->
  includes (content_text (Part000.respond r)) (stdout r) = true.
Proof.
  destruct r as [out err e]. cbn [stdout]. intros Ho.
  rewrite respond_unfold, content_text_single. rewrite Ho. cbv zeta.
  destruct (truthy err) eqn:He;
    destruct e as [t|];
    [destruct (truthy t) eqn:Hte| |destruct (truthy t) eqn:Hte|];
    cbn [negb andb truthy_opt]; try rewrite Hte; cbn [negb andb];
    frame_trim; find_piece.
Qed.

Lemma respond_includes_stderr (r : sandbox_result) :
  truthy (stderr r) = true ->
  includes (content_text (Part000.respond r)) (stderr r) = true.
Proof.
  destruct r as [out err e]. cbn [stderr]. intros He.
  rewrite respond_unfold, content_text_single. rewrite He. cbv zeta.
  destruct (truthy out) eqn:Ho;
    destruct e as [t|];
    [destruct (truthy t) eqn:Hte| |destruct (truthy t) eqn:Hte|];
    cbn [negb andb truthy_opt]; try rewrite Hte; cbn [negb andb];
    frame_trim; find_piece.
Qed.

Lemma starts_solid_nonempty (s : jsstring) : starts_solid s = true -> s <> [].
Proof. destruct s; [discriminate|discriminate]. Qed.

Lemma respond_text_nonempty (r : sandbox_result) :
  exists t e, Part000.respond r = text_response t e /\ t <> [].
Proof.
  destruct r as [out err e]. rewrite respond_unfold. eexists _, _.
  split; [reflexivity|]. cbv zeta.
  destruct (truthy out), (truthy err); destruct e as [t|];
    try destruct (truthy t) eqn:Hte;
    cbn [negb andb truthy_opt]; try rewrite Hte; cbn [negb andb];
    try (intros E; vm_compute in E; discriminate E);
    rewrite ?app_nil_l; apply trim_nonempty;
    rewrite !app_assoc; repeat apply starts_solid_app; reflexivity.
Qed.

Lemma respond_ts_text_nonempty (r : sandbox_result) :
  exists t, ServerTs.respond r = text_response t false /\ t <> [].
Proof.
  destruct r as [out err e]. unfold ServerTs.respond, text_response.
  eexists. split; [reflexivity|]. cbv zeta. cbn [stdout stderr error].
  destruct (truthy out), (truthy err); destruct e as [t|];
    try destruct (truthy t) eqn:Hte;
    cbn [negb andb truthy_opt]; try rewrite Hte; cbn [negb andb];
    try (intros E; vm_compute in E; discriminate E);
    rewrite ?app_nil_l; apply trim_nonempty;
    rewrite !app_assoc; repeat apply starts_solid_app; reflexivity.
Qed.

Lemma respond_isError_blank (out err : jsstring) :
  trim err = [] -> isError (Part000.respond (mkResult out err None)) = false.
Proof.
  intros Ht. rewrite respond_unfold. cbn [isError text_response].
  unfold js_or, js_and. cbn [truthy_opt ToBoolean]. rewrite Ht.
  destruct err; reflexivity.
Qed.

(** X8. In part_000 a response has [isError = false] exactly for a clean
    run: the set-up and the read-back went through, the script exited with
    status 0 and what it wrote to standard error is blank.  Every other
    path (a failing host call, an exception of [wasi.start], a non-zero
    status, text on stderr) gives [isError = true]. *)
Theorem success_response_iff_clean_exit (h : host) (code : jsstring)
    (m : wasm_module) (σ σ' : store) (resp : tool_response) :
  run_handler (Part000.tool_handler h code m) σ = (inr resp, σ') ->
  (isError resp = false
   <-> setup_succeeds h σ = true /\ capture_succeeds h = true
       /\ run_ending (started_run h code m σ) = Exits 0
       /\ trim (err_written (started_run h code m σ)) = []).
Proof.
  intros Hh. split.
  - intros Hf.
    destruct (run_result h code m σ) as [e|r] eqn:Hr.
    + destruct (run_result_inl _ _ _ _ _ Hr) as [msg Hm].
      rewrite Hm in Hh. inversion Hh; subst resp. discriminate Hf.
    + rewrite (run_result_inr _ _ _ _ _ Hr) in Hh. inversion Hh; subst resp.
      destruct (respond_isError_false _ Hf) as [He Ht].
      revert Hr He Ht. rewrite run_result_paths. unfold path_result, caught.
      rewrite setup_succeeds_no_error, capture_succeeds_no_error.
      destruct (setup_error h σ) as [[msg txt|what]|]; cbv beta iota;
        [intros [= <-] H; cbn in H; discriminate H|intros H; discriminate H|].
      destruct (run_ending (started_run h code m σ)) as [n|[msg txt|what]];
        cbv beta iota;
        [|intros [= <-] H; cbn in H; discriminate H
         |unfold TypeError_reading, error_of; cbv beta iota;
          intros [= <-] H; cbn in H; discriminate H].
      destruct (capture_error h) as [[msg txt|what]|]; cbv beta iota;
        [intros [= <-] H; cbn in H; discriminate H|intros H; discriminate H|].
      intros [= <-]. cbn [error stdout stderr]. unfold exit_error.
      destruct (Z.eqb_spec n 0) as [->|];
        [|intros H; cbn in H; discriminate H].
      intros _ Ht. repeat split; try reflexivity; exact Ht.
  - intros (Hs & Hc & He & Ht).
    destruct (run_exits h code m σ 0 Hs Hc He) as [σ1 Hr].
    rewrite (handler_returns _ _ _ _ _ _ Hr) in Hh. inversion Hh; subst resp.
    cbn [exit_error Z.eqb]. now apply respond_isError_blank.
Qed.

Lemma success_response_iff_clean_exit_witness :
  isError
    (text_response
       (js "--- stdout ---" ++ nl ++ (js "hi" ++ nl) ++ nl
        ++ js "--- stdout ---") false) = false
  <-> setup_succeeds calm_host empty_store = true
      /\ capture_succeeds calm_host = true
      /\ run_ending (started_run calm_host (js "console.log('hi')") prints_hi
                       empty_store) = Exits 0
      /\ trim (err_written (started_run calm_host (js "console.log('hi')")
                              prints_hi empty_store)) = [].
Proof.
  apply (success_response_iff_clean_exit calm_host (js "console.log('hi')")
           prints_hi empty_store empty_store).
  vm_compute. reflexivity.
Defined.

(** X9. White space alone on standard error, in part_000: when the script
    exits with status 0 and the captured stderr is not empty but blank, the
    response has [isError = false] and its text still includes the stderr
    text, in its section. *)
Theorem blank_stderr_is_shown_not_flagged (h : host) (code : jsstring)
    (m : wasm_module) (σ : store) :
  setup_succeeds h σ = true -> capture_succeeds h = true ->
  run_ending (started_run h code m σ) = Exits 0 ->
  err_written (started_run h code m σ) <> [] ->
  trim (err_written (started_run h code m σ)) = [] ->
  exists resp σ',
    run_handler (Part000.tool_handler h code m) σ = (inr resp, σ')
    /\ isError resp = false
    /\ includes (content_text resp) (err_written (started_run h code m σ))
       = true
    /\ includes (content_text resp) (js "--- stderr ---") = true.
Proof.
  intros Hs Hc He Hne Ht.
  destruct (run_exits h code m σ 0 Hs Hc He) as [σ' Hr].
  eexists _, σ'. split; [exact (handler_returns _ _ _ _ _ _ Hr)|].
  assert (Htr : truthy (err_written (started_run h code m σ)) = true)
    by (destruct (err_written (started_run h code m σ));
        [now elim Hne|reflexivity]).
  split; [|split].
  - rewrite respond_unfold. cbn [isError text_response exit_error Z.eqb].
    unfold js_or, js_and. cbn [truthy_opt ToBoolean]. rewrite Htr, Ht.
    reflexivity.
  - now apply respond_includes_stderr.
  - rewrite respond_unfold, content_text_single. cbv zeta.
    rewrite Htr. cbn [exit_error Z.eqb truthy_opt].
    destruct (truthy (out_written (started_run h code m σ)));
      cbn [negb andb]; frame_trim; find_piece.
Qed.

Lemma blank_stderr_is_shown_not_flagged_witness :
  exists resp σ',
    run_handler
      (Part000.tool_handler calm_host
         (js "console.log('ok'); std.err.puts('\n')") blank_warning)
      empty_store = (inr resp, σ')
    /\ isError resp = false
    /\ includes (content_text resp) nl = true
    /\ includes (content_text resp) (js "--- stderr ---") = true.
Proof.
  apply (blank_stderr_is_shown_not_flagged calm_host
           (js "console.log('ok'); std.err.puts('\n')") blank_warning
           empty_store).
  - vm_compute. reflexivity.
  - reflexivity.
  - reflexivity.
  - vm_compute. discriminate.
  - vm_compute. reflexivity.
Defined.

(** X10. The text part_000 builds keeps every part of a result that is
    present: a non-empty [stdout], a non-empty [stderr] and a non-empty
    [error] each occur in it as they are; the trimming takes nothing from
    them. *)
Theorem response_keeps_every_part (r : sandbox_result) :
  (truthy (stdout r) = true ->
   includes (content_text (Part000.respond r)) (stdout r) = true)
  /\ (truthy (stderr r) = true ->
      includes (content_text (Part000.respond r)) (stderr r) = true)
  /\ (forall e, error r = Some e -> truthy e = true ->
      includes (content_text (Part000.respond r)) e = true).
Proof.
  split; [apply respond_includes_stdout|].
  split; [apply respond_includes_stderr|].
  intros e He Ht. now apply respond_error.
Qed.

Lemma response_keeps_every_part_witness :
  includes
    (content_text
       (Part000.respond
          (mkResult (js " indented" ++ nl) (js "warn " ++ nl) None)))
    (js " indented" ++ nl) = true
  /\ includes
       (content_text
          (Part000.respond
             (mkResult (js " indented" ++ nl) (js "warn " ++ nl) None)))
       (js "warn " ++ nl) = true.
Proof.
  pose proof (response_keeps_every_part
                (mkResult (js " indented" ++ nl) (js "warn " ++ nl) None))
    as (H1 & H2 & _).
  split; [apply H1|apply H2]; reflexivity.
Defined.

(** X11. In both files, for every run that ends (the script exits or
    [wasi.start] throws; a script that never ends gets no answer), whatever
    the host calls do and however the run ends, the handler answers with
    exactly one content item, of type [text], whose text is not empty. *)
Theorem response_text_never_empty (h : host) (code : jsstring)
    (m : wasm_module) (σ : store) :
  (exists t e σ',
     run_handler (Part000.tool_handler h code m) σ
     = (inr {| content := [ {| type := js "text"; text := t |} ];
               isError := e |}, σ')
     /\ t <> [])
  /\ (exists t e σ',
        run_handler (ServerTs.tool_handler h code m) σ
        = (inr {| content := [ {| type := js "text"; text := t |} ];
                  isError := e |}, σ')
        /\ t <> []).
Proof.
  split.
  - destruct (run_result h code m σ) as [e|r] eqn:Hr.
    + destruct (run_result_inl _ _ _ _ _ Hr) as [msg Hm].
      rewrite Hm. eexists _, _, _. split; [reflexivity|].
      intros E. vm_compute in E. discriminate E.
    + rewrite (run_result_inr _ _ _ _ _ Hr).
      destruct (respond_text_nonempty r) as (t & e & -> & Hne).
      now exists t, e, (store_after h code m σ).
  - destruct (run_result_ts h code m σ) as [e|r] eqn:Hr.
    + destruct (run_result_ts_inl _ _ _ _ _ Hr) as [msg Hm].
      rewrite Hm. eexists _, _, _. split; [reflexivity|].
      intros E. vm_compute in E. discriminate E.
    + rewrite (run_result_ts_inr _ _ _ _ _ Hr).
      destruct (respond_ts_text_nonempty r) as (t & -> & Hne).
      now exists t, false, (store_after_ts h code m σ).
Qed.

(* ===================================================================== *)
(** ** part_000: what a run leaves of the host *)
(* ===================================================================== *)

(** X12. A run of part_000 touches nothing but its own directory and
    handles, on every path and even when the cleanup fails: every temporary
    directory that existed before is there after with the same files, every
    descriptor that was open before is still open on the same file, and
    nothing is written to the process's own streams. *)
Theorem run_touches_nothing_else (h : host) (code : jsstring)
    (m : wasm_module) (σ : store) :
  inherited (store_after h code m σ) = inherited σ
  /\ (forall d files,
        tmp_dirs σ !! d = Some files ->
        tmp_dirs (store_after h code m σ) !! d = Some files)
  /\ (forall fd p,
        open_fds σ !! fd = Some p ->
        open_fds (store_after h code m σ) !! fd = Some p).
Proof. apply run_frame. Qed.

Lemma run_touches_nothing_else_witness :
  tmp_dirs
    (store_after rm_fails_host (js "console.log('hi')") prints_hi busy_store)
    !! js "/tmp/quickjs-wasi-zzzzzz"
  = Some {[ js "stdout.log" := js "x" ]}.
Proof.
  apply (proj1 (proj2 (run_touches_nothing_else rm_fails_host
                         (js "console.log('hi')") prints_hi busy_store))).
  vm_compute. reflexivity.
Defined.

Lemma store_after_same (h : host) (code : jsstring) (m : wasm_module)
    (σ : store) :
  cleanup_succeeds h = true -> store_after h code m σ = σ.
Proof.
  intros Hc. destruct (run_releases h code m σ Hc) as [Ht Hf].
  destruct (run_frame h code m σ) as [Hi _].
  destruct (store_after h code m σ) as [t f i], σ as [t0 f0 i0].
  cbn in Ht, Hf, Hi. now subst.
Qed.

(** X13. Requests served one after the other by part_000 leave nothing
    behind: when the cleanup calls of each go through, the store after any
    number of runs, of any scripts and with any failures elsewhere, is the
    store before the first. *)
Theorem sequential_runs_leave_nothing (l : list invocation) (σ : store) :
  Forall (fun i => cleanup_succeeds (inv_host i) = true) l ->
  run_all l σ = σ.
Proof.
  unfold run_all. induction 1 as [|i l Hi _ IH]; [reflexivity|].
  cbn [fold_left]. now rewrite (store_after_same _ _ _ _ Hi).
Qed.

Lemma sequential_runs_leave_nothing_witness :
  run_all
    [ mkInvocation calm_host (js "console.log('hi')") prints_hi;
      mkInvocation open_fails_host (js "throw new Error('boom')") throws_boom;
      mkInvocation calm_host prints_then_traps_code prints_then_traps ]
    busy_store = busy_store.
Proof.
  apply (sequential_runs_leave_nothing
           [ mkInvocation calm_host (js "console.log('hi')") prints_hi;
             mkInvocation open_fails_host (js "throw new Error('boom')")
               throws_boom;
             mkInvocation calm_host prints_then_traps_code prints_then_traps ]
           busy_store).
  repeat constructor.
Defined.

(* ===================================================================== *)
(** ** server.ts: what a run gives and where the output goes *)
(* ===================================================================== *)

(** X14. Set-up failure in server.ts: when [new WASI] or
    [WebAssembly.instantiate] throws a value other than [null] or
    [undefined], [runQuickJsInSandbox] resolves, whatever the module, to
    empty streams and the error [Sandbox execution failed: ] followed by the
    exception's message, and no temporary file or descriptor is made or
    removed. *)
Theorem server_ts_setup_failure (h : host) (code : jsstring)
    (m : wasm_module) (σ : store) (msg : option jsstring) (txt : jsstring) :
  first_thrown [new_WASI_throws h; instantiate_throws h]
  = Some (Thrown msg txt) ->
  run_result_ts h code m σ
  = inr {| stdout := []; stderr := [];
           error := Some (js "Sandbox execution failed: " ++ template msg) |}
  /\ tmp_dirs (store_after_ts h code m σ) = tmp_dirs σ
  /\ open_fds (store_after_ts h code m σ) = open_fds σ.
Proof.
  intros H. rewrite run_result_ts_paths, store_after_ts_paths.
  unfold path_result_ts. rewrite H. repeat split; reflexivity.
Qed.

Lemma server_ts_setup_failure_witness :
  run_result_ts link_fails_host (js "console.log('hi')") prints_hi busy_store
  = inr {| stdout := []; stderr := [];
           error := Some (js "Sandbox execution failed: "
                          ++ js "import object field is missing") |}
  /\ tmp_dirs
       (store_after_ts link_fails_host (js "console.log('hi')") prints_hi
          busy_store) = tmp_dirs busy_store
  /\ open_fds
       (store_after_ts link_fails_host (js "console.log('hi')") prints_hi
          busy_store) = open_fds busy_store.
Proof.
  apply (server_ts_setup_failure link_fails_host (js "console.log('hi')")
           prints_hi busy_store (Some (js "import object field is missing"))
           (js "LinkError: import object field is missing")).
  reflexivity.
Defined.

(** X15. In server.ts the script writes to the server's own streams: when
    the sandbox is set up, and descriptors 1 and 2 are the process's own,
    everything the script writes to its standard output and standard error
    goes to descriptors 1 and 2 of the process, however the run ends, and
    no temporary file or descriptor is made. *)
Theorem server_ts_output_goes_to_process_streams (h : host) (code : jsstring)
    (m : wasm_module) (σ : store) :
  succeeds (new_WASI_throws h) = true ->
  succeeds (instantiate_throws h) = true ->
  open_fds σ !! 1 = None -> open_fds σ !! 2 = None ->
  store_after_ts h code m σ
  = mkStore (tmp_dirs σ) (open_fds σ)
      (inherited σ ++ [(1, out_written (started_run_ts h code m));
                       (2, err_written (started_run_ts h code m))]).
Proof.
  intros H1 H2 Hf1 Hf2. rewrite store_after_ts_paths. host_premises.
  cbn [first_thrown]. unfold write_fd. cbn [open_fds tmp_dirs inherited].
  rewrite Hf1. cbn [open_fds tmp_dirs inherited]. rewrite Hf2.
  now rewrite <- app_assoc.
Qed.

Lemma server_ts_output_goes_to_process_streams_witness :
  store_after_ts calm_host prints_then_traps_code prints_then_traps
    empty_store
  = mkStore ∅ ∅ [(1, js "partial output" ++ nl); (2, [])].
Proof.
  apply (server_ts_output_goes_to_process_streams calm_host
           prints_then_traps_code prints_then_traps empty_store);
    reflexivity.
Defined.

(** X16. The handler of server.ts answers with [isError = true] only when
    [new WASI] or [WebAssembly.instantiate] throws [null] or [undefined], so
    that the [catch] block itself throws: never for a failing script, a
    non-zero exit status or a set-up error it has put in the text. *)
Theorem server_ts_flags_only_escapes (h : host) (code : jsstring)
    (m : wasm_module) (σ σ' : store) (resp : tool_response) :
  run_handler (ServerTs.tool_handler h code m) σ = (inr resp, σ') ->
  (isError resp = true
   <-> exists what,
         first_thrown [new_WASI_throws h; instantiate_throws h]
         = Some (ThrownNullish what)).
Proof.
  intros Hh.
  destruct (run_result_ts h code m σ) as [e|r] eqn:Hr.
  - destruct (run_result_ts_inl _ _ _ _ _ Hr) as [msg Hm].
    rewrite Hm in Hh. inversion Hh; subst resp. cbn [isError text_response].
    split; [intros _|reflexivity].
    revert Hr. rewrite run_result_ts_paths. unfold path_result_ts, caught_ts.
    destruct (first_thrown [new_WASI_throws h; instantiate_throws h])
      as [[msg' txt|what]|]; cbv beta iota.
    + discriminate.
    + intros _. now exists what.
    + destruct (run_ending (started_run_ts h code m)) as [n|[msg' txt|what]];
        discriminate.
  - rewrite (run_result_ts_inr _ _ _ _ _ Hr) in Hh. inversion Hh; subst resp.
    split; [discriminate|]. intros [what Hw].
    revert Hr. rewrite run_result_ts_paths. unfold path_result_ts, caught_ts.
    rewrite Hw. discriminate.
Qed.

Lemma server_ts_flags_only_escapes_witness :
  isError (text_response (js "--- Execution Success (No Output) ---") false)
  = true
  <-> exists what,
        first_thrown [new_WASI_throws calm_host; instantiate_throws calm_host]
        = Some (ThrownNullish what).
Proof.
  apply (server_ts_flags_only_escapes calm_host (js "throw new Error('boom')")
           throws_boom empty_store
           (mkStore ∅ ∅ [(1, []); (2, js "Error: boom" ++ nl)])).
  vm_compute. reflexivity.
Defined.

(* ===================================================================== *)
(** ** Start-up: the transport *)
(* ===================================================================== *)

(** X17. In both files the process serves exactly when the binary was read
    and compiled and [server.connect] did not throw; otherwise it ends, and
    always with exit code 1: a failing transport ends the process like a
    missing binary. *)
Theorem serving_iff_loaded_and_connected (b : boot) :
  ((exists srv, main Part000.startServer b = Serving srv)
   <-> load_fails b = false /\ connect_throws b = None)
  /\ ((exists srv, main ServerTs.startServer b = Serving srv)
      <-> load_fails b = false /\ connect_throws b = None)
  /\ (forall c,
        main Part000.startServer b = Exited c
        \/ main ServerTs.startServer b = Exited c -> c = 1%Z).
Proof.
  unfold load_fails, main, Part000.startServer, ServerTs.startServer,
    Part000.loadAndCompileWasm, ServerTs.loadAndCompileWasm, connect,
    object_truthy.
  destruct (readFile_wasm b) as [e|buf]; cbn;
    [|destruct (WebAssembly_compile b buf) as [e|compiled]; cbn;
      [|destruct (connect_throws b) as [e|]; cbn]].
  1-3: split; [|split];
    [ split; [intros [srv Hs]; discriminate Hs
             |intros [H1 H2]; discriminate]
    | split; [intros [srv Hs]; discriminate Hs
             |intros [H1 H2]; discriminate]
    | intros c [Hc|Hc]; now inversion Hc ].
  split; [|split].
  - split; [intros _; split; reflexivity|intros _; eexists; reflexivity].
  - split; [intros _; split; reflexivity|intros _; eexists; reflexivity].
  - intros c [Hc|Hc]; discriminate Hc.
Qed.
